(** * Face-recognition attendance service (src/app.py)

    A shallow embedding of the Flask application: the SQLite store created by
    [init_db], the in-memory cache and the two methods of [AttendanceSystem],
    and the five request handlers.  The computer-vision library and the JSON
    codec are an interface ([FaceProvider]); everything else is translated
    from the Python text, statement by statement. *)

From Stdlib Require Import List String Ascii ZArith Bool Lia Arith.
From Stdlib Require Import Permutation Sorted DecimalString Floats.
Import ListNotations.

Set Implicit Arguments.
Local Open Scope list_scope.

(** ** Python results: a value or a raised exception *)

Inductive outcome (A : Type) : Type :=
| Ok (a : A)
| Raise (msg : string).

Arguments Ok {A} a.
Arguments Raise {A} msg.

(** [l[i]] on a Python list: IndexError when [i] is out of range. *)
Definition index {A : Type} (l : list A) (i : nat) : outcome A :=
  match nth_error l i with
  | Some x => Ok x
  | None => Raise "list index out of range"
  end.

(** [str(n)] for a non-negative int, as the f-strings print [len(results)]. *)
Definition str_of_nat (n : nat) : string :=
  NilEmpty.string_of_uint (Nat.to_uint n).

(** [d.get(key)] on a dict with string keys: [None] when the key is absent. *)
Fixpoint dict_get {V : Type} (d : list (string * V)) (key : string) : option V :=
  match d with
  | [] => None
  | (k, v) :: rest => if String.eqb k key then Some v else dict_get rest key
  end.

(** Truth value of an optional string: [None] and [''] are false. *)
Definition truthy (v : option string) : bool :=
  match v with
  | Some s => negb (String.eqb s EmptyString)
  | None => false
  end.

(** [v or default] on an optional string. *)
Definition or_default (v : option string) (default : string) : string :=
  match v with
  | Some s => if String.eqb s EmptyString then default else s
  | None => default
  end.

(** ** numpy.argmin on a one-dimensional float64 array

    The first index of the smallest element; a NaN, once met, is the answer
    (the comparison is written negated, [!(x >= mp)], for that reason).
    An empty array raises ValueError. *)

Fixpoint argmin_from (mp : float) (min_ind i : nat) (l : list float) : nat :=
  match l with
  | [] => min_ind
  | x :: rest =>
      if negb (PrimFloat.leb mp x)
      then if PrimFloat.is_nan x then i else argmin_from x i (S i) rest
      else argmin_from mp min_ind (S i) rest
  end.

Definition np_argmin (l : list float) : outcome nat :=
  match l with
  | [] => Raise "attempt to get argmin of an empty sequence"
  | x :: rest =>
      Ok (if PrimFloat.is_nan x then 0 else argmin_from x 0 1 rest)
  end.

(** ** The store: the two tables of [init_db]

    Rows are kept in rowid order, the order of a table scan.  The
    [student_id] of a student and dates are text; a date is an ISO 8601
    string, which the DATE column keeps as text, so [=] on it is string
    equality (see [on_clause] for other text).  Nullable columns that the
    handlers can fill with an absent JSON field are options. *)

Record student_row : Type := {
  s_id : Z;                          (* INTEGER PRIMARY KEY AUTOINCREMENT *)
  s_student_id : string;             (* TEXT UNIQUE *)
  s_name : string;                   (* TEXT NOT NULL *)
  s_face_encoding : option string;   (* TEXT *)
  s_created_at : string              (* TIMESTAMP DEFAULT CURRENT_TIMESTAMP *)
}.

Record attendance_row : Type := {
  a_id : Z;                          (* INTEGER PRIMARY KEY AUTOINCREMENT *)
  a_student_id : option string;      (* TEXT *)
  a_date : option string;            (* DATE *)
  a_status : option string;          (* TEXT *)
  a_timestamp : string               (* TIMESTAMP DEFAULT CURRENT_TIMESTAMP *)
}.

Record database : Type := {
  students : list student_row;
  students_seq : Z;                  (* sqlite_sequence entry of students *)
  attendance : list attendance_row;
  attendance_seq : Z                 (* sqlite_sequence entry of attendance *)
}.

(** The wall clock a request reads: [date.today().isoformat()] and
    CURRENT_TIMESTAMP. *)
Record clock : Type := {
  today : string;
  now : string
}.

(** AUTOINCREMENT: one more than the largest rowid the table ever held. *)
Definition next_rowid (ids : list Z) (seq : Z) : Z :=
  Z.max (fold_right Z.max 0%Z ids) seq + 1.

(** INSERT OR REPLACE: rows that collide with the new row on a PRIMARY KEY
    or UNIQUE column are deleted, then the new row is added. *)
Definition insert_or_replace {R : Type} (conflict : R -> R -> bool)
    (table : list R) (new : R) : list R :=
  filter (fun r => negb (conflict r new)) table ++ [new].

(** students: PRIMARY KEY (id) and UNIQUE (student_id). *)
Definition student_conflict (r new : student_row) : bool :=
  Z.eqb (s_id r) (s_id new) || String.eqb (s_student_id r) (s_student_id new).

(** attendance: PRIMARY KEY (id) is its only uniqueness constraint. *)
Definition attendance_conflict (r new : attendance_row) : bool :=
  Z.eqb (a_id r) (a_id new).

(** INSERT OR REPLACE INTO students (student_id, name, face_encoding)
    VALUES (?, ?, ?) *)
Definition upsert_student (d : database) (created : string)
    (student_id name encoding_json : string) : database :=
  let id := next_rowid (map s_id (students d)) (students_seq d) in
  let new := {| s_id := id; s_student_id := student_id; s_name := name;
                s_face_encoding := Some encoding_json;
                s_created_at := created |} in
  {| students := insert_or_replace student_conflict (students d) new;
     students_seq := id;
     attendance := attendance d;
     attendance_seq := attendance_seq d |}.

(** INSERT OR REPLACE INTO attendance (student_id, date, status)
    VALUES (?, ?, ?) *)
Definition upsert_attendance (d : database) (stamp : string)
    (student_id date status : option string) : database :=
  let id := next_rowid (map a_id (attendance d)) (attendance_seq d) in
  let new := {| a_id := id; a_student_id := student_id; a_date := date;
                a_status := status; a_timestamp := stamp |} in
  {| students := students d;
     students_seq := students_seq d;
     attendance := insert_or_replace attendance_conflict (attendance d) new;
     attendance_seq := id |}.

(** SELECT student_id, name, face_encoding FROM students *)
Definition select_students (d : database)
  : list (string * string * option string) :=
  map (fun r => (s_student_id r, s_name r, s_face_encoding r)) (students d).

(** SELECT name FROM students WHERE student_id = ?   (fetchone) *)
Definition select_name (d : database) (student_id : string) : option string :=
  match filter (fun r => String.eqb (s_student_id r) student_id) (students d) with
  | r :: _ => Some (s_name r)
  | [] => None
  end.

(** The order of the index that UNIQUE (student_id) creates: text in byte
    order, ascending; equal keys keep their rowid order. *)
Fixpoint insert_id (x : string) (l : list string) : list string :=
  match l with
  | [] => [x]
  | y :: rest => if String.leb x y then x :: y :: rest else y :: insert_id x rest
  end.

Definition index_order (l : list string) : list string :=
  fold_right insert_id [] l.

(** SELECT student_id FROM students: the one column asked for is in the
    index of the UNIQUE constraint, and SQLite answers from that index, in
    its order, not from the table. *)
Definition select_student_ids (d : database) : list string :=
  index_order (map s_student_id (students d)).

(** A row of the roster query: s.student_id, s.name, a.status, a.timestamp. *)
Record joined : Type := {
  j_student_id : string;
  j_name : string;
  j_status : option string;
  j_timestamp : option string
}.

(** The shape of [date.isoformat()]: YYYY-MM-DD. *)
Definition is_digit (c : ascii) : bool :=
  (nat_of_ascii "0" <=? nat_of_ascii c)%nat && (nat_of_ascii c <=? nat_of_ascii "9")%nat.

Definition iso_date (s : string) : bool :=
  match s with
  | String y1 (String y2 (String y3 (String y4 (String h1
      (String m1 (String m2 (String h2 (String d1 (String d2 EmptyString))))))))) =>
      is_digit y1 && is_digit y2 && is_digit y3 && is_digit y4
      && Ascii.eqb h1 "-" && is_digit m1 && is_digit m2
      && Ascii.eqb h2 "-" && is_digit d1 && is_digit d2
  | _ => false
  end.

(** The ON clause: s.student_id = a.student_id AND a.date = ?  (a NULL on
    either side of [=] is not a match).  The date column is declared DATE,
    which gives it NUMERIC affinity: a text that reads as a number is stored
    as that number, and a parameter that reads as a number is compared as
    one.  A parameter that does not read as a number, as no [iso_date]
    does, equals a stored date exactly when the two texts are the same,
    which is what is written here; a statement about a date that a client
    asks for takes [iso_date] of it as a hypothesis. *)
Definition on_clause (date : string) (s : student_row) (a : attendance_row) : bool :=
  match a_student_id a, a_date a with
  | Some sid, Some dt => String.eqb (s_student_id s) sid && String.eqb dt date
  | _, _ => false
  end.

(** students s LEFT JOIN attendance a ON ...: every matching attendance row,
    or one row of NULLs when there is none. *)
Definition left_join_one (date : string) (att : list attendance_row)
    (s : student_row) : list joined :=
  match filter (on_clause date s) att with
  | [] => [ {| j_student_id := s_student_id s; j_name := s_name s;
               j_status := None; j_timestamp := None |} ]
  | hits => map (fun a => {| j_student_id := s_student_id s; j_name := s_name s;
                             j_status := a_status a;
                             j_timestamp := Some (a_timestamp a) |}) hits
  end.

Definition left_join (date : string) (d : database) : list joined :=
  flat_map (left_join_one date (attendance d)) (students d).

(** ORDER BY s.student_id: text in byte order, ascending.  SQL leaves the
    order of rows with the same key open; here they keep the order of the
    join, and no statement below depends on it. *)
Fixpoint insert_sorted (x : joined) (l : list joined) : list joined :=
  match l with
  | [] => [x]
  | y :: rest =>
      if String.leb (j_student_id x) (j_student_id y)
      then x :: y :: rest
      else y :: insert_sorted x rest
  end.

Definition order_by_student_id (l : list joined) : list joined :=
  fold_right insert_sorted [] l.

Definition select_roster (d : database) (date : string) : list joined :=
  order_by_student_id (left_join date d).

(** ** The face library and the JSON codec, as the program uses them

    [face_recognition.load_image_file], [face_locations], [face_encodings]
    (with or without known locations), [compare_faces], [face_distance];
    [json.dumps(v.tolist())] and [np.array(json.loads(s))]. *)

Class FaceProvider : Type := {
  upload : Type;
  image : Type;
  location : Type;
  encoding : Type;
  load_image_file : upload -> outcome image;
  face_locations : image -> list location;
  face_encodings : image -> option (list location) -> list encoding;
  compare_faces : list encoding -> encoding -> list bool;
  face_distance : list encoding -> encoding -> list float;
  json_dumps : encoding -> string;
  json_loads : string -> outcome encoding
}.

(** What the program relies on: one decision and one distance per known
    encoding, and a codec that reads back what it wrote (never the empty
    string). *)
Record provider_laws (P : FaceProvider) : Prop := {
  compare_faces_length :
    forall known e, List.length (compare_faces known e) = List.length known;
  face_distance_length :
    forall known e, List.length (face_distance known e) = List.length known;
  json_loads_dumps : forall e, json_loads (json_dumps e) = Ok e;
  json_dumps_nonempty : forall e, json_dumps e <> EmptyString
}.

Section Runtime.

Context {P : FaceProvider}.

(** ** Process state: the database file and the [AttendanceSystem] object *)

Record system : Type := {
  db : database;
  known_face_encodings : list encoding;
  known_face_ids : list string
}.

(** A computation reads and writes the state and returns or raises; what it
    wrote before raising stays written. *)
Definition M (A : Type) : Type := system -> outcome A * system.

Definition ret {A : Type} (a : A) : M A := fun st => (Ok a, st).

Definition bind {A B : Type} (c : M A) (k : A -> M B) : M B :=
  fun st =>
    match c st with
    | (Ok a, st') => k a st'
    | (Raise msg, st') => (Raise msg, st')
    end.

Definition lift {A : Type} (o : outcome A) : M A := fun st => (o, st).

(** try: body / except Exception as e: handler(str(e)) *)
Definition try_except {A : Type} (body : M A) (handler : string -> M A) : M A :=
  fun st =>
    match body st with
    | (Ok a, st') => (Ok a, st')
    | (Raise msg, st') => handler msg st'
    end.

(** cursor.execute of a SELECT, with fetchall or fetchone. *)
Definition query {A : Type} (q : database -> A) : M A :=
  fun st => (Ok (q (db st)), st).

(** cursor.execute of a write, with conn.commit(). *)
Definition execute (w : database -> database) : M unit :=
  fun st => (Ok tt, {| db := w (db st);
                       known_face_encodings := known_face_encodings st;
                       known_face_ids := known_face_ids st |}).

Definition get_cache : M (list encoding * list string) :=
  fun st => (Ok (known_face_encodings st, known_face_ids st), st).

Definition set_cache (encs : list encoding) (ids : list string) : M unit :=
  fun st => (Ok tt, {| db := db st;
                       known_face_encodings := encs;
                       known_face_ids := ids |}).

End Runtime.

Declare Scope py_scope.

Notation "x <- c ;; k" := (bind c (fun x => k))
  (at level 61, c at next level, right associativity) : py_scope.
Notation "' pat <- c ;; k" := (bind c (fun x => match x with pat => k end))
  (at level 61, pat pattern, c at next level, right associativity) : py_scope.
Notation "c ;;; k" := (bind c (fun _ => k))
  (at level 61, right associativity) : py_scope.

Local Open Scope py_scope.

Section Loops.

Context {P : FaceProvider}.

(** for x in l: body(x) *)
Fixpoint for_each {A : Type} (l : list A) (body : A -> M unit) : M unit :=
  match l with
  | [] => ret tt
  | x :: rest => body x ;;; for_each rest body
  end.

(** for x in l: acc = body(acc, x), for a loop that updates local variables. *)
Fixpoint for_fold {A S : Type} (l : list A) (acc : S) (body : S -> A -> M S) : M S :=
  match l with
  | [] => ret acc
  | x :: rest => acc' <- body acc x ;; for_fold rest acc' body
  end.

(** One entry of [attendance_results]. *)
Record result : Type := {
  r_student_id : string;
  r_name : string;
  r_status : string;
  r_confidence : float
}.

(** The first argument of [mark_attendance]: a file to load, or, with
    [is_live_feed], the frame itself. *)
Inductive image_source : Type :=
| FromFile (image_file : upload)
| LiveFeed (frame : image).

(** The body of the loop over the detected faces. *)
Definition match_face (acc : list string * list result) (face_encoding : encoding)
  : M (list string * list result) :=
  let '(present_students, attendance_results) := acc in
  '(known, ids) <- get_cache ;;
  let matches := compare_faces known face_encoding in
  let face_distances := face_distance known face_encoding in
  if (0 <? List.length face_distances)%nat then
    best_match_index <- lift (np_argmin face_distances) ;;
    hit <- lift (index matches best_match_index) ;;
    if hit : bool then
      student_id <- lift (index ids best_match_index) ;;
      found <- query (fun d => select_name d student_id) ;;
      let student_name :=
        match found with Some n => n | None => "Unknown"%string end in
      dist <- lift (index face_distances best_match_index) ;;
      ret (present_students ++ [student_id],
           attendance_results ++
             [ {| r_student_id := student_id; r_name := student_name;
                  r_status := "Present";
                  r_confidence := PrimFloat.sub PrimFloat.one dist |} ])
    else ret acc
  else ret acc.

(** [student_id in present_students] *)
Definition is_in (student_id : string) (present_students : list string) : bool :=
  existsb (String.eqb student_id) present_students.

(** The roster sweep: one write per row of students. *)
Definition sweep (clk : clock) (present_students : list string) : M unit :=
  all_students <- query select_student_ids ;;
  for_each all_students (fun student_id =>
    let status := if is_in student_id present_students
                  then "Present"%string else "Absent"%string in
    execute (fun d => upsert_attendance d (now clk)
                        (Some student_id) (Some (today clk)) (Some status))).

End Loops.

(** ** AttendanceSystem *)

Module AttendanceSystem.

Section Methods.

Context {P : FaceProvider}.

(** load_known_faces *)
Definition load_known_faces : M unit :=
  rows <- query select_students ;;
  set_cache [] [] ;;;
  for_each rows (fun '(student_id, name, encoding_json) =>
    if truthy encoding_json then
      (* past the test the cell is a non-empty text *)
      enc <- lift (json_loads (or_default encoding_json EmptyString)) ;;
      '(encs, ids) <- get_cache ;;
      set_cache (encs ++ [enc]) (ids ++ [student_id])
    else ret tt).

(** register_student *)
Definition register_student (clk : clock) (student_id name : string)
    (image_file : upload) : M (bool * string) :=
  img <- lift (load_image_file image_file) ;;
  match face_encodings img None with
  | [] => ret (false, "No face detected in the image"%string)
  | face_encoding :: _ =>
      let encoding_json := json_dumps face_encoding in
      try_except
        (execute (fun d => upsert_student d (now clk) student_id name encoding_json) ;;;
         load_known_faces ;;;
         ret (true, "Student registered successfully"%string))
        (fun e => ret (false, ("Error: " ++ e)%string))
  end.

(** mark_attendance *)
Definition mark_attendance (clk : clock) (source : image_source) : M (list result) :=
  img <- match source with
         | LiveFeed frame => ret frame
         | FromFile image_file => lift (load_image_file image_file)
         end ;;
  let locations := face_locations img in
  let faces := face_encodings img (Some locations) in
  '(present_students, attendance_results) <- for_fold faces ([], []) match_face ;;
  sweep clk present_students ;;;
  ret attendance_results.

End Methods.

End AttendanceSystem.

Section Routes.

Context {P : FaceProvider}.

(** ** The request handlers *)

(** What a handler reads of a request: [request.files], [request.form] and
    the JSON body [request.json], an object with string values. *)
Record request : Type := {
  files : list (string * upload);
  form : list (string * string);
  json : list (string * string)
}.

(** One entry of the attendance listing. *)
Record entry : Type := {
  e_student_id : string;
  e_name : string;
  e_status : string;
  e_timestamp : option string
}.

Inductive body : Type :=
| Message (success : bool) (message : string)
| Marked (success : bool) (results : list result) (total_present : nat)
         (message : string)
| Listing (date : string) (attendance_data : list entry)
| Text (csv_data : string).

Record response : Type := {
  status_code : Z;
  headers : list (string * string);
  payload : body
}.

(** [jsonify(...)]: a 200 response with a JSON body. *)
Definition jsonify (b : body) : response :=
  {| status_code := 200;
     headers := [("Content-Type", "application/json")%string];
     payload := b |}.

(** POST /api/register *)
Definition register_student (clk : clock) (req : request) : M response :=
  match dict_get (files req) "image" with
  | None => ret (jsonify (Message false "No image provided"))
  | Some image_file =>
      let student_id := dict_get (form req) "student_id" in
      let name := dict_get (form req) "name" in
      if negb (truthy student_id) || negb (truthy name) then
        ret (jsonify (Message false "Student ID and name are required"))
      else
        '(success, message) <-
           AttendanceSystem.register_student clk (or_default student_id EmptyString)
             (or_default name EmptyString) image_file ;;
        ret (jsonify (Message success message))
  end.

(** POST /api/mark_attendance *)
Definition mark_attendance (clk : clock) (req : request) : M response :=
  match dict_get (files req) "image" with
  | None => ret (jsonify (Message false "No image provided"))
  | Some image_file =>
      results <- AttendanceSystem.mark_attendance clk (FromFile image_file) ;;
      ret (jsonify (Marked true results (List.length results)
             ("Attendance marked for " ++ str_of_nat (List.length results)
                ++ " students")%string))
  end.

Definition entry_of (record : joined) : entry :=
  {| e_student_id := j_student_id record;
     e_name := j_name record;
     e_status := or_default (j_status record) "Not Recorded";
     e_timestamp := j_timestamp record |}.

(** GET /api/attendance/<date> *)
Definition get_attendance (date : string) : M response :=
  records <- query (fun d => select_roster d date) ;;
  let attendance_data := map entry_of records in
  ret (jsonify (Listing date attendance_data)).

(** POST /api/update_attendance *)
Definition update_attendance (clk : clock) (req : request) : M response :=
  let data := json req in
  let student_id := dict_get data "student_id" in
  let date := dict_get data "date" in
  let status := dict_get data "status" in
  execute (fun d => upsert_attendance d (now clk) student_id date status) ;;;
  ret (jsonify (Message true "Attendance updated")).

Definition csv_header : string := "Student ID,Name,Status,Date" ++ String "010" "".

(** One line of the export, with its newline. *)
Definition csv_line (date : string) (record : joined) : string :=
  (j_student_id record ++ "," ++ j_name record ++ ","
     ++ or_default (j_status record) "Not Recorded" ++ "," ++ date
     ++ String "010" "")%string.

(** GET /api/export/<date> *)
Definition export_attendance (date : string) : M response :=
  records <- query (fun d => select_roster d date) ;;
  let csv_data :=
    fold_left (fun csv record => (csv ++ csv_line date record)%string)
      records csv_header in
  ret {| status_code := 200;
         headers := [("Content-Type", "text/csv");
                     ("Content-Disposition",
                      "attachment; filename=attendance_" ++ date ++ ".csv")]%string;
         payload := Text csv_data |}.

(** The state a computation leaves, and what it returned. *)
Definition after {A : Type} (c : M A) (st : system) : system := snd (c st).
Definition returned {A : Type} (c : M A) (st : system) : outcome A := fst (c st).

End Routes.

Local Close Scope py_scope.


(** ** A small provider to run the service on

    A picture is the list of the faces in it, a face is a natural number,
    two faces are at distance a quarter of their difference, and the match
    decision is the library's: distance at most 0.6.  An encoding is written
    as the letter [e] followed by that many [x]. *)

Module Toy.

Definition float_of_nat (n : nat) : float :=
  PrimFloat.of_uint63 (Uint63.of_Z (Z.of_nat n)).

Definition distance (k e : nat) : float :=
  PrimFloat.div (float_of_nat ((k - e) + (e - k))) (float_of_nat 4).

Definition tolerance : float := 0x1.3333333333333p-1%float.

Fixpoint xs (n : nat) : string :=
  match n with
  | O => EmptyString
  | S m => String "x" (xs m)
  end.

Definition dumps (n : nat) : string := String "e" (xs n).

Definition loads (s : string) : outcome nat :=
  match s with
  | String "e" rest => Ok (String.length rest)
  | _ => Raise "Expecting value"
  end.

#[export] Instance provider : FaceProvider := {|
  upload := list nat;
  image := list nat;
  location := nat;
  encoding := nat;
  load_image_file := fun f => Ok f;
  face_locations := fun img => seq 0 (List.length img);
  face_encodings := fun img locs =>
    match locs with
    | None => img
    | Some l => flat_map (fun i => match nth_error img i with
                                   | Some e => [e]
                                   | None => []
                                   end) l
    end;
  compare_faces := fun known e =>
    map (fun k => PrimFloat.leb (distance k e) tolerance) known;
  face_distance := fun known e => map (fun k => distance k e) known;
  json_dumps := dumps;
  json_loads := loads
|}.

Definition empty_db : database :=
  {| students := []; students_seq := 0; attendance := []; attendance_seq := 0 |}.

Definition boot : system :=
  {| db := empty_db; known_face_encodings := []; known_face_ids := [] |}.

Definition morning : clock := {| today := "2024-03-01"; now := "2024-03-01 08:00:00" |}.
Definition noon : clock := {| today := "2024-03-01"; now := "2024-03-01 12:00:00" |}.

Definition multipart (image_file : option (list nat)) (fields : list (string * string))
  : request :=
  {| files := match image_file with
              | Some f => [("image"%string, f)]
              | None => []
              end;
     form := fields;
     json := [] |}.

Definition json_body (fields : list (string * string)) : request :=
  {| files := []; form := []; json := fields |}.

End Toy.

(** ** Vocabulary of the statements *)

(** The row an attendance write adds. *)
Definition written_row (d : database) (stamp : string)
    (student_id date status : option string) : attendance_row :=
  {| a_id := next_rowid (map a_id (attendance d)) (attendance_seq d);
     a_student_id := student_id; a_date := date; a_status := status;
     a_timestamp := stamp |}.

(** The row a registration adds. *)
Definition registered_row (d : database) (created student_id name encoding_json : string)
  : student_row :=
  {| s_id := next_rowid (map s_id (students d)) (students_seq d);
     s_student_id := student_id; s_name := name;
     s_face_encoding := Some encoding_json; s_created_at := created |}.

(** Ascending [student_id], in the byte order of the text. *)
Definition by_student_id (x y : joined) : Prop :=
  String.leb (j_student_id x) (j_student_id y) = true.

(** The roster row of a student with no attendance row for the date. *)
Definition unmatched (s : student_row) : joined :=
  {| j_student_id := s_student_id s; j_name := s_name s;
     j_status := None; j_timestamp := None |}.

(** The listing entry of a student with no attendance row for the date. *)
Definition not_recorded (s : student_row) : entry :=
  {| e_student_id := s_student_id s; e_name := s_name s;
     e_status := "Not Recorded"; e_timestamp := None |}.

(** The attendance rows of a student for a date, the date compared as in
    [on_clause]: these are the rows the join finds when the date asked for
    is an [iso_date]. *)
Definition rows_for (d : database) (student_id date : string) : list attendance_row :=
  filter (fun a => match a_student_id a, a_date a with
                   | Some s, Some dt => String.eqb s student_id && String.eqb dt date
                   | _, _ => false
                   end) (attendance d).

Section CacheVocabulary.

Context {P : FaceProvider}.

(** What the loop of [load_known_faces] makes of the rows it fetched, from
    the cache it starts with: the cache it leaves, and whether it raised. *)
Fixpoint loaded (rows : list (string * string * option string))
    (encs : list encoding) (ids : list string)
  : outcome unit * (list encoding * list string) :=
  match rows with
  | [] => (Ok tt, (encs, ids))
  | (student_id, _, encoding_json) :: rest =>
      if truthy encoding_json then
        match json_loads (or_default encoding_json EmptyString) with
        | Ok enc => loaded rest (encs ++ [enc]) (ids ++ [student_id])
        | Raise msg => (Raise msg, (encs, ids))
        end
      else loaded rest encs ids
  end.

(** Every stored encoding can be read back. *)
Definition loadable (d : database) : Prop :=
  forall r, In r (students d) -> truthy (s_face_encoding r) = true ->
    exists enc, json_loads (or_default (s_face_encoding r) EmptyString) = Ok enc.

(** The cache holds one id per encoding. *)
Definition lockstep (st : system) : Prop :=
  List.length (known_face_ids st) = List.length (known_face_encodings st).

(** The image [mark_attendance] works on. *)
Definition image_of (source : image_source) : outcome image :=
  match source with
  | LiveFeed frame => Ok frame
  | FromFile image_file => load_image_file image_file
  end.

End CacheVocabulary.

(** The entry [match_face] appends for a student matched at a distance. *)
Definition present_result (d : database) (student_id : string) (dist : float) : result :=
  {| r_student_id := student_id;
     r_name := match select_name d student_id with
               | Some n => n
               | None => "Unknown"%string
               end;
     r_status := "Present";
     r_confidence := PrimFloat.sub PrimFloat.one dist |}.

(** The status the sweep writes for a student. *)
Definition swept_status (present_students : list string) (student_id : string) : string :=
  if is_in student_id present_students then "Present"%string else "Absent"%string.

(** The store after the sweep has written the rows of [ids], in order. *)
Fixpoint swept (d : database) (stamp date : string) (present_students ids : list string)
  : database :=
  match ids with
  | [] => d
  | student_id :: rest =>
      swept (upsert_attendance d stamp (Some student_id) (Some date)
               (Some (swept_status present_students student_id)))
        stamp date present_students rest
  end.

(** What an attendance row says, without its rowid. *)
Definition says (a : attendance_row)
  : option string * option string * option string * string :=
  (a_student_id a, a_date a, a_status a, a_timestamp a).

Section MatchVocabulary.

Context {P : FaceProvider}.

(** [res] is the entry of a face matched against the cache of [st]: the
    index numpy picks for the face's distances carries a true decision, the
    student's id and the stored encoding, and the entry reports that id at
    that distance. *)
Definition matched (st : system) (face : encoding) (res : result) : Prop :=
  exists i d stored,
    np_argmin (face_distance (known_face_encodings st) face) = Ok i /\
    nth_error (face_distance (known_face_encodings st) face) i = Some d /\
    nth_error (compare_faces (known_face_encodings st) face) i = Some true /\
    nth_error (known_face_ids st) i = Some (r_student_id res) /\
    nth_error (known_face_encodings st) i = Some stored /\
    res = present_result (db st) (r_student_id res) d.

(** The faces [mark_attendance] compares, for an image. *)
Definition faces_of (img : image) : list encoding :=
  face_encodings img (Some (face_locations img)).

End MatchVocabulary.

(** The number of newline characters in a text. *)
Fixpoint newlines (s : string) : nat :=
  match s with
  | EmptyString => 0
  | String c rest => (if Ascii.eqb c "010" then 1 else 0) + newlines rest
  end.

(** ** A day at the service

    Two students register, then attendance is marked twice on the same day:
    in the morning from a picture of Ann, at noon from a picture of Bob. *)

Module Day.

Import Toy.

Definition registered : system :=
  after (register_student morning
           (multipart (Some [20]) [("student_id", "B2"); ("name", "Bob")]%string))
    (after (register_student morning
              (multipart (Some [10]) [("student_id", "A1"); ("name", "Ann")]%string))
       boot).

Definition first_call : system :=
  after (mark_attendance morning (multipart (Some [11]) [])) registered.

Definition second_call : system :=
  after (mark_attendance noon (multipart (Some [21]) [])) first_call.

Definition correction : request :=
  json_body [("student_id", "A1"); ("date", "2024-03-01"); ("status", "Present")]%string.

Definition corrected_twice : system :=
  after (update_attendance noon correction)
    (after (update_attendance morning correction) registered).

(** A correction whose body has no student_id. *)
Definition nameless : request :=
  json_body [("date", "2024-03-01"); ("status", "Present")]%string.

(** A store in which Cy's row has no encoding. *)
Definition with_blank : system :=
  {| db := {| students :=
                [ {| s_id := 1; s_student_id := "A1"; s_name := "Ann";
                     s_face_encoding := Some (dumps 10);
                     s_created_at := "2024-03-01 08:00:00" |};
                  {| s_id := 2; s_student_id := "C3"; s_name := "Cy";
                     s_face_encoding := None;
                     s_created_at := "2024-03-01 08:00:00" |} ];
              students_seq := 2; attendance := []; attendance_seq := 0 |};
     known_face_encodings := []; known_face_ids := [] |}.

End Day.

(** Ann registers again, with another picture and another spelling. *)
Definition reregistered : system :=
  after (AttendanceSystem.register_student Toy.noon "A1" "Anne" ([12] : @upload Toy.provider))
    (after (AttendanceSystem.register_student Toy.morning "A1" "Ann" ([10] : @upload Toy.provider))
       Toy.boot).

(** ** The routes, and the database file at start-up *)

Section Dispatch.

Context {P : FaceProvider}.

(** A request as the routing table sees it: one constructor per
    [@app.route], with the clock the handler reads. *)
Inductive call : Type :=
| PostRegister (clk : clock) (req : request)
| PostMarkAttendance (clk : clock) (req : request)
| GetAttendance (date : string)
| PostUpdateAttendance (clk : clock) (req : request)
| GetExport (date : string).

Definition handle (c : call) : M response :=
  match c with
  | PostRegister clk req => register_student clk req
  | PostMarkAttendance clk req => mark_attendance clk req
  | GetAttendance date => get_attendance date
  | PostUpdateAttendance clk req => update_attendance clk req
  | GetExport date => export_attendance date
  end.

(** The state after a request, answered or failed. *)
Definition serve (st : system) (c : call) : system := after (handle c) st.

(** The state after a sequence of requests. *)
Definition serve_all (calls : list call) (st : system) : system :=
  fold_left serve calls st.

End Dispatch.

(** The file attendance.db: a table is in it once its CREATE TABLE has run;
    with it comes its sqlite_sequence counter. *)
Record db_file : Type := {
  students_table : option (list student_row * Z);
  attendance_table : option (list attendance_row * Z)
}.

(** init_db: CREATE TABLE IF NOT EXISTS, for students and for attendance. *)
Definition init_db (f : db_file) : db_file :=
  {| students_table := match students_table f with
                       | Some t => Some t
                       | None => Some ([], 0%Z)
                       end;
     attendance_table := match attendance_table f with
                         | Some t => Some t
                         | None => Some ([], 0%Z)
                         end |}.

(** The rows a file holds, a missing table read as empty. *)
Definition view (f : db_file) : database :=
  {| students := match students_table f with Some (rows, _) => rows | None => [] end;
     students_seq := match students_table f with Some (_, seq) => seq | None => 0%Z end;
     attendance := match attendance_table f with Some (rows, _) => rows | None => [] end;
     attendance_seq := match attendance_table f with Some (_, seq) => seq | None => 0%Z end |}.

Section Startup.

Context {P : FaceProvider}.

(** AttendanceSystem(): both lists start empty, then [load_known_faces],
    whose SELECT fails when the file has no students table (it reads no
    other table). *)
Definition construct (f : db_file) : outcome system :=
  match students_table f with
  | None => Raise "no such table: students"
  | Some _ =>
      match AttendanceSystem.load_known_faces
              {| db := view f; known_face_encodings := []; known_face_ids := [] |} with
      | (Ok _, st) => Ok st
      | (Raise msg, _) => Raise msg
      end
  end.

(** The module run as a script: [attendance_system = AttendanceSystem()]
    is a statement of the module body, met before the final
    [if __name__ == '__main__': init_db()]. *)
Definition main (f : db_file) : outcome system * db_file :=
  match construct f with
  | Ok st => (Ok st, init_db f)
  | Raise msg => (Raise msg, f)
  end.

End Startup.

(** ** More vocabulary *)


(** One line of the export, from a listing entry. *)
Definition entry_line (date : string) (e : entry) : string :=
  (e_student_id e ++ "," ++ e_name e ++ "," ++ e_status e ++ "," ++ date
     ++ String "010" "")%string.

(** Ascending [student_id] on listing entries. *)
Definition by_entry_id (x y : entry) : Prop :=
  String.leb (e_student_id x) (e_student_id y) = true.

(** [l] starts with [prefix]. *)
Definition extends {A : Type} (prefix l : list A) : Prop :=
  exists more, l = prefix ++ more.

Section InvariantVocabulary.

Context {P : FaceProvider}.

(** Every cached id is the id of a students row. *)
Definition cache_known (st : system) : Prop :=
  forall student_id, In student_id (known_face_ids st) ->
                     In student_id (select_student_ids (db st)).

(** No two students rows share a student_id. *)
Definition ids_unique (st : system) : Prop :=
  NoDup (select_student_ids (db st)).

End InvariantVocabulary.

Module Night.

Import Toy.

(** A store in which Bob's encoding is not what the codec writes. *)
Definition with_garbage : system :=
  {| db := {| students :=
                [ {| s_id := 1; s_student_id := "B2"; s_name := "Bob";
                     s_face_encoding := Some "garbage"%string;
                     s_created_at := "2024-03-01 08:00:00" |} ];
              students_seq := 1; attendance := []; attendance_seq := 0 |};
     known_face_encodings := []; known_face_ids := [] |}.

Definition fresh_file : db_file :=
  {| students_table := None; attendance_table := None |}.

Definition correction_for (student_id status : string) : request :=
  json_body [("student_id", student_id); ("date", "2024-03-01"); ("status", status)]%string.

End Night.

(** The small provider again, with uploads that may not be an image. *)
Module Fragile.

Definition provider : FaceProvider := {|
  upload := option (list nat);
  image := list nat;
  location := nat;
  encoding := nat;
  load_image_file := fun f =>
    match f with
    | Some img => Ok img
    | None => Raise "cannot identify image file"
    end;
  face_locations := @face_locations Toy.provider;
  face_encodings := @face_encodings Toy.provider;
  compare_faces := @compare_faces Toy.provider;
  face_distance := @face_distance Toy.provider;
  json_dumps := Toy.dumps;
  json_loads := Toy.loads
|}.

Definition boot : @system provider :=
  {| db := Toy.empty_db; known_face_encodings := []; known_face_ids := [] |}.

Definition broken_upload : @request provider :=
  @Build_request provider
    [("image"%string, None)]
    [("student_id", "A1"); ("name", "Ann")]%string
    [].

End Fragile.

Section FaceVocabulary.

Context {P : FaceProvider}.

(** What one detected face contributes to the results: the entry of the
    student at the index numpy picks, when the decision there is true. *)
Definition face_result (st : system) (face : encoding) : list result :=
  let known := known_face_encodings st in
  match np_argmin (face_distance known face) with
  | Ok i =>
      match nth_error (compare_faces known face) i,
            nth_error (known_face_ids st) i,
            nth_error (face_distance known face) i with
      | Some true, Some student_id, Some d => [present_result (db st) student_id d]
      | _, _, _ => []
      end
  | Raise _ => []
  end.

End FaceVocabulary.

Module Week.

Import Toy.

(** A morning of requests: two registrations, a marking, a correction, a
    listing, a second registration of Ann, an export. *)
Definition requests : list call :=
  [ PostRegister morning
      (multipart (Some [10]) [("student_id", "A1"); ("name", "Ann")]%string);
    PostRegister morning
      (multipart (Some [20]) [("student_id", "B2"); ("name", "Bob")]%string);
    PostMarkAttendance morning (multipart (Some [11]) []);
    PostUpdateAttendance noon Day.correction;
    GetAttendance "2024-03-01";
    PostRegister noon
      (multipart (Some [12]) [("student_id", "A1"); ("name", "Anne")]%string);
    GetExport "2024-03-01" ].

Definition ann : student_row :=
  {| s_id := 1; s_student_id := "A1"; s_name := "Ann";
     s_face_encoding := Some (dumps 10);
     s_created_at := "2024-03-01 08:00:00" |}.

Definition bob_garbled : student_row :=
  {| s_id := 1; s_student_id := "B2"; s_name := "Bob";
     s_face_encoding := Some "garbage"%string;
     s_created_at := "2024-03-01 08:00:00" |}.

End Week.

Section RowVocabulary.

Context {P : FaceProvider}.

(** The state with other rows in the attendance table, all else equal. *)
Definition with_attendance (st : system) (rows : list attendance_row) : system :=
  {| db := {| students := students (db st);
              students_seq := students_seq (db st);
              attendance := rows;
              attendance_seq := attendance_seq (db st) |};
     known_face_encodings := known_face_encodings st;
     known_face_ids := known_face_ids st |}.

End RowVocabulary.



(** * Properties *)

(** ** The store *)

Lemma fold_max_bound (ids : list Z) (x : Z) :
  In x ids -> (x <= fold_right Z.max 0 ids)%Z.
Proof.
  induction ids as [|y ys IH]; simpl; [tauto|].
  intros [->|Hin]; [lia|]. specialize (IH Hin). lia.
Qed.

Lemma next_rowid_fresh (ids : list Z) (seq x : Z) :
  In x ids -> (x < next_rowid ids seq)%Z.
Proof.
  intros Hin. apply fold_max_bound in Hin. unfold next_rowid. lia.
Qed.

Lemma filter_all {A : Type} (f : A -> bool) (l : list A) :
  (forall x, In x l -> f x = true) -> filter f l = l.
Proof.
  induction l as [|a l IH]; simpl; intros H; [reflexivity|].
  rewrite (H a (or_introl eq_refl)). f_equal. apply IH. intros x Hx. apply H. now right.
Qed.

Lemma filter_none {A : Type} (f : A -> bool) (l : list A) :
  (forall x, In x l -> f x = false) -> filter f l = [].
Proof.
  induction l as [|a l IH]; simpl; intros H; [reflexivity|].
  rewrite (H a (or_introl eq_refl)). apply IH. intros x Hx. apply H. now right.
Qed.

(** A write to attendance never meets a conflict: the table only grows. *)
Lemma upsert_attendance_appends (d : database) (stamp : string)
    (student_id date status : option string) :
  attendance (upsert_attendance d stamp student_id date status)
  = attendance d ++ [written_row d stamp student_id date status].
Proof.
  unfold upsert_attendance, insert_or_replace, written_row. simpl. f_equal.
  apply filter_all. intros r Hr. unfold attendance_conflict. simpl.
  apply negb_true_iff, Z.eqb_neq.
  pose proof (@next_rowid_fresh (map a_id (attendance d)) (attendance_seq d) (a_id r)
                (in_map a_id _ _ Hr)).
  lia.
Qed.

Lemma upsert_attendance_students (d : database) (stamp : string)
    (student_id date status : option string) :
  students (upsert_attendance d stamp student_id date status) = students d.
Proof. reflexivity. Qed.

(** A write to students drops the rows with that [student_id] and adds one. *)
Lemma upsert_student_rows (d : database) (created student_id name encoding_json : string) :
  students (upsert_student d created student_id name encoding_json)
  = filter (fun r => negb (String.eqb (s_student_id r) student_id)) (students d)
    ++ [registered_row d created student_id name encoding_json].
Proof.
  unfold upsert_student, insert_or_replace, registered_row. simpl. f_equal.
  apply filter_ext_in. intros r Hr. unfold student_conflict. simpl.
  pose proof (@next_rowid_fresh (map s_id (students d)) (students_seq d) (s_id r)
                (in_map s_id _ _ Hr)).
  replace (s_id r =? _)%Z with false by (symmetry; apply Z.eqb_neq; lia).
  reflexivity.
Qed.

Lemma upsert_student_attendance (d : database) (created student_id name encoding_json : string) :
  attendance (upsert_student d created student_id name encoding_json) = attendance d.
Proof. reflexivity. Qed.

(** After a registration the table holds exactly one row for that id. *)
Lemma upsert_student_unique (d : database) (created student_id name encoding_json : string) :
  filter (fun r => String.eqb (s_student_id r) student_id)
    (students (upsert_student d created student_id name encoding_json))
  = [registered_row d created student_id name encoding_json].
Proof.
  rewrite upsert_student_rows, filter_app. simpl. rewrite String.eqb_refl.
  rewrite filter_none; [reflexivity|].
  intros r Hr. apply filter_In in Hr. destruct Hr as [_ Hr].
  now apply negb_true_iff in Hr.
Qed.

(** ** The roster query *)

Lemma insert_sorted_perm (x : joined) (l : list joined) :
  Permutation (insert_sorted x l) (x :: l).
Proof.
  induction l as [|y l IH]; simpl; [reflexivity|].
  destruct (String.leb (j_student_id x) (j_student_id y)); [reflexivity|].
  rewrite IH. apply perm_swap.
Qed.

Lemma order_by_student_id_perm (l : list joined) :
  Permutation (order_by_student_id l) l.
Proof.
  induction l as [|x l IH]; simpl; [reflexivity|].
  rewrite insert_sorted_perm. now constructor.
Qed.

Lemma insert_sorted_hd (x a : joined) (l : list joined) :
  by_student_id a x -> HdRel by_student_id a l ->
  HdRel by_student_id a (insert_sorted x l).
Proof.
  intros Hax Hal. destruct l as [|y l]; simpl; [now constructor|].
  destruct (String.leb (j_student_id x) (j_student_id y)); constructor; auto.
  now inversion Hal.
Qed.

Lemma insert_sorted_sorted (x : joined) (l : list joined) :
  Sorted by_student_id l -> Sorted by_student_id (insert_sorted x l).
Proof.
  induction 1 as [|y l Hs IH Hhd]; simpl; [repeat constructor|].
  destruct (String.leb (j_student_id x) (j_student_id y)) eqn:Hxy.
  - constructor; [now constructor|]. now constructor.
  - constructor; [exact IH|]. apply insert_sorted_hd; [|exact Hhd].
    unfold by_student_id.
    destruct (String.leb_total (j_student_id x) (j_student_id y)); congruence.
Qed.

Lemma order_by_student_id_sorted (l : list joined) :
  Sorted by_student_id (order_by_student_id l).
Proof.
  induction l as [|x l IH]; simpl; [constructor|]. now apply insert_sorted_sorted.
Qed.

(** The roster of any date comes out in ascending [student_id]. *)
Lemma select_roster_sorted (d : database) (date : string) :
  Sorted by_student_id (select_roster d date).
Proof. apply order_by_student_id_sorted. Qed.

Lemma on_clause_rows_for (d : database) (date : string) (s : student_row) :
  filter (on_clause date s) (attendance d) = rows_for d (s_student_id s) date.
Proof.
  unfold rows_for. apply filter_ext. intros a. unfold on_clause.
  destruct (a_student_id a) as [sid|], (a_date a) as [dt|]; try reflexivity.
  now rewrite (String.eqb_sym (s_student_id s) sid).
Qed.

(** A student with no attendance row for the date gives one row of NULLs. *)
Lemma left_join_one_unmatched (d : database) (date : string) (s : student_row) :
  rows_for d (s_student_id s) date = [] ->
  left_join_one date (attendance d) s = [unmatched s].
Proof.
  intros H. unfold left_join_one. now rewrite on_clause_rows_for, H.
Qed.

(** A student with attendance rows for the date gives one row for each. *)
Lemma left_join_one_length (d : database) (date : string) (s : student_row) :
  List.length (left_join_one date (attendance d) s)
  = Nat.max 1 (List.length (rows_for d (s_student_id s) date)).
Proof.
  unfold left_join_one. rewrite on_clause_rows_for.
  destruct (rows_for d (s_student_id s) date); simpl; [reflexivity|].
  now rewrite length_map.
Qed.

Lemma left_join_one_student (date : string) (att : list attendance_row)
    (s : student_row) (j : joined) :
  In j (left_join_one date att s) ->
  j_student_id j = s_student_id s /\ j_name j = s_name s.
Proof.
  unfold left_join_one. destruct (filter (on_clause date s) att) as [|a hits].
  - intros [<-|[]]. now split.
  - intros Hin. apply in_map_iff in Hin. destruct Hin as [a' [<- _]]. now split.
Qed.

Lemma left_join_unmatched (d : database) (date : string) :
  (forall a, In a (attendance d) -> a_date a <> Some date) ->
  left_join date d = map unmatched (students d).
Proof.
  intros Hnone. unfold left_join.
  induction (students d) as [|s l IH]; simpl; [reflexivity|].
  rewrite IH, left_join_one_unmatched; [reflexivity|].
  unfold rows_for. apply filter_none. intros a Ha.
  specialize (Hnone a Ha).
  destruct (a_student_id a) as [sid|], (a_date a) as [dt|]; try reflexivity.
  destruct (String.eqb_spec dt date) as [->|]; [congruence|].
  apply andb_false_r.
Qed.

Lemma entry_of_unmatched (s : student_row) : entry_of (unmatched s) = not_recorded s.
Proof. reflexivity. Qed.

Section Listing.

Context {P : FaceProvider}.

Lemma get_attendance_run (st : system) (date : string) :
  get_attendance date st
  = (Ok (jsonify (Listing date (map entry_of (select_roster (db st) date)))), st).
Proof. reflexivity. Qed.

(** C7. For a date in the ISO form of the interface: when the store has no
    attendance row of that date, the listing has every known student once,
    with status "Not Recorded"; and in any store, a known student with no
    attendance row for the date is listed with status "Not Recorded" and no
    other. *)
Theorem get_attendance_not_recorded (st : system) (date : string) :
  iso_date date = true ->
  exists listing,
    get_attendance date st = (Ok (jsonify (Listing date listing)), st) /\
    ((forall a, In a (attendance (db st)) -> a_date a <> Some date) ->
     Permutation listing (map not_recorded (students (db st)))) /\
    (forall s, In s (students (db st)) ->
               rows_for (db st) (s_student_id s) date = [] ->
       In (not_recorded s) listing /\
       forall e, In e listing -> e_student_id e = s_student_id s ->
                 e_status e = "Not Recorded"%string /\ e_timestamp e = None).
Proof.
  intros _.
  exists (map entry_of (select_roster (db st) date)).
  split; [apply get_attendance_run|]. split.
  - intros Hnone. unfold select_roster.
    rewrite (order_by_student_id_perm (left_join date (db st))).
    rewrite (left_join_unmatched _ Hnone), map_map.
    erewrite map_ext; [reflexivity|]. intros s. apply entry_of_unmatched.
  - intros s Hs Hrows. split.
    + rewrite <- entry_of_unmatched. apply in_map.
      unfold select_roster.
      apply (Permutation_in _ (Permutation_sym (order_by_student_id_perm _))).
      unfold left_join. apply in_flat_map. exists s. split; [exact Hs|].
      rewrite (left_join_one_unmatched _ _ _ Hrows). now left.
    + intros e He Hid. apply in_map_iff in He. destruct He as [j [<- Hj]].
      unfold select_roster in Hj.
      apply (Permutation_in _ (order_by_student_id_perm _)) in Hj.
      unfold left_join in Hj. apply in_flat_map in Hj. destruct Hj as [s' [Hs' Hj]].
      pose proof (left_join_one_student _ _ _ _ Hj) as [Hjid _].
      simpl in Hid. rewrite Hjid in Hid.
      rewrite left_join_one_unmatched in Hj by (rewrite Hid; exact Hrows).
      destruct Hj as [<-|[]]. now split.
Qed.

End Listing.

(** ** The cache reload *)

Section Reload.

Context {P : FaceProvider}.

Lemma for_each_load (rows : list (string * string * option string)) (st : system) :
  for_each rows (fun '(student_id, name, encoding_json) =>
    if truthy encoding_json then
      bind (lift (json_loads (or_default encoding_json EmptyString))) (fun enc =>
      bind get_cache (fun c => let '(encs, ids) := c in
      set_cache (encs ++ [enc]) (ids ++ [student_id])))
    else ret tt) st
  = (fst (loaded rows (known_face_encodings st) (known_face_ids st)),
     {| db := db st;
        known_face_encodings :=
          fst (snd (loaded rows (known_face_encodings st) (known_face_ids st)));
        known_face_ids :=
          snd (snd (loaded rows (known_face_encodings st) (known_face_ids st))) |}).
Proof.
  revert st. induction rows as [|[[sid name] ej] rows IH]; intros st.
  - destruct st; reflexivity.
  - simpl. unfold bind at 1. destruct (truthy ej).
    + unfold bind at 1, lift at 1.
      destruct (json_loads (or_default ej EmptyString)) as [enc|msg].
      * unfold bind, get_cache, set_cache. rewrite IH. reflexivity.
      * destruct st; reflexivity.
    + unfold ret. apply IH.
Qed.

Lemma load_known_faces_run (st : system) :
  AttendanceSystem.load_known_faces st
  = (fst (loaded (select_students (db st)) [] []),
     {| db := db st;
        known_face_encodings := fst (snd (loaded (select_students (db st)) [] []));
        known_face_ids := snd (snd (loaded (select_students (db st)) [] [])) |}).
Proof.
  unfold AttendanceSystem.load_known_faces, bind at 1, query. unfold bind at 1, set_cache at 1.
  rewrite for_each_load. reflexivity.
Qed.

(** The reload adds to the cache pairs read from rows with an encoding. *)
Lemma loaded_sound (rows : list (string * string * option string))
    (encs : list encoding) (ids : list string) :
  exists extra : list (string * encoding),
    snd (loaded rows encs ids) = (encs ++ map snd extra, ids ++ map fst extra) /\
    forall sid enc, In (sid, enc) extra ->
      exists name ej, In (sid, name, ej) rows /\ truthy ej = true /\
                      json_loads (or_default ej EmptyString) = Ok enc.
Proof.
  revert encs ids. induction rows as [|[[sid name] ej] rows IH]; intros encs ids.
  - exists []. simpl. rewrite !app_nil_r. split; [reflexivity|]. intros ? ? [].
  - simpl. destruct (truthy ej) eqn:Ht.
    + destruct (json_loads (or_default ej EmptyString)) as [enc|msg] eqn:Hl.
      * destruct (IH (encs ++ [enc]) (ids ++ [sid])) as [extra [Heq Hin]].
        exists ((sid, enc) :: extra). split.
        -- rewrite Heq. simpl. now rewrite <- !app_assoc.
        -- intros sid' enc' [Hhd|Htl].
           ++ inversion Hhd; subst. exists name, ej. simpl. auto.
           ++ destruct (Hin _ _ Htl) as [n [e [? ?]]]. exists n, e. simpl. auto.
      * exists []. simpl. rewrite !app_nil_r. split; [reflexivity|]. intros ? ? [].
    + destruct (IH encs ids) as [extra [Heq Hin]]. exists extra. split; [exact Heq|].
      intros sid' enc' Hx. destruct (Hin _ _ Hx) as [n [e [? ?]]].
      exists n, e. simpl. auto.
Qed.

(** When every stored encoding reads back, the reload returns, with the ids
    of the rows that have an encoding, in table order. *)
Lemma loaded_complete (rows : list (string * string * option string))
    (encs : list encoding) (ids : list string) :
  (forall sid name ej, In (sid, name, ej) rows -> truthy ej = true ->
     exists enc, json_loads (or_default ej EmptyString) = Ok enc) ->
  fst (loaded rows encs ids) = Ok tt /\
  snd (snd (loaded rows encs ids))
  = ids ++ map (fun r => fst (fst r)) (filter (fun r => truthy (snd r)) rows).
Proof.
  revert encs ids. induction rows as [|[[sid name] ej] rows IH]; intros encs ids Hall.
  - simpl. now rewrite app_nil_r.
  - simpl. destruct (truthy ej) eqn:Ht.
    + destruct (Hall sid name ej (or_introl eq_refl) Ht) as [enc ->].
      destruct (IH (encs ++ [enc]) (ids ++ [sid])) as [H1 H2].
      { intros. eapply Hall; [right|]; eauto. }
      split; [exact H1|]. rewrite H2. simpl. now rewrite <- app_assoc.
    + apply IH. intros. eapply Hall; [right|]; eauto.
Qed.

End Reload.

(** ** Registration *)

Section Registration.

Context {P : FaceProvider}.

Lemma register_student_run (clk : clock) (student_id name : string)
    (image_file : upload) (img : image) (enc : encoding) (others : list encoding)
    (st : system) :
  load_image_file image_file = Ok img ->
  face_encodings img None = enc :: others ->
  let d := upsert_student (db st) (now clk) student_id name (json_dumps enc) in
  let cache := loaded (select_students d) [] [] in
  AttendanceSystem.register_student clk student_id name image_file st
  = (match fst cache with
     | Ok _ => Ok (true, "Student registered successfully"%string)
     | Raise e => Ok (false, ("Error: " ++ e)%string)
     end,
     {| db := d; known_face_encodings := fst (snd cache);
        known_face_ids := snd (snd cache) |}).
Proof.
  intros Hload Hfaces d cache. unfold AttendanceSystem.register_student, bind at 1, lift.
  rewrite Hload, Hfaces. unfold try_except, bind at 1, execute.
  unfold bind at 1. rewrite load_known_faces_run. simpl db. fold d. fold cache.
  destruct (fst cache); reflexivity.
Qed.

(** C3. When no face is detected in the image, registration answers
    (False, "No face detected in the image") and leaves the state, hence the
    students table, as it was; the handler passes the answer on in a 200
    response. *)
Theorem register_without_face (clk : clock) (student_id name : string)
    (image_file : upload) (img : image) (st : system) :
  load_image_file image_file = Ok img ->
  face_encodings img None = [] ->
  AttendanceSystem.register_student clk student_id name image_file st
  = (Ok (false, "No face detected in the image"%string), st) /\
  forall req,
    dict_get (files req) "image" = Some image_file ->
    dict_get (form req) "student_id" = Some student_id ->
    dict_get (form req) "name" = Some name ->
    student_id <> EmptyString -> name <> EmptyString ->
    register_student clk req st
    = (Ok (jsonify (Message false "No face detected in the image")), st).
Proof.
  intros Hload Hfaces.
  assert (Hreg : AttendanceSystem.register_student clk student_id name image_file st
                 = (Ok (false, "No face detected in the image"%string), st)).
  { unfold AttendanceSystem.register_student, bind, lift. now rewrite Hload, Hfaces. }
  split; [exact Hreg|].
  intros req Hfile Hid Hname Hid_ne Hname_ne.
  unfold register_student. rewrite Hfile, Hid, Hname. simpl.
  apply String.eqb_neq in Hid_ne, Hname_ne. rewrite Hid_ne, Hname_ne. simpl.
  unfold bind. now rewrite Hreg.
Qed.

Lemma upsert_student_loadable (laws : provider_laws P) (d : database)
    (created student_id name : string) (enc : encoding) :
  loadable d -> loadable (upsert_student d created student_id name (json_dumps enc)).
Proof.
  intros Hd r Hr Ht. rewrite upsert_student_rows in Hr.
  apply in_app_or in Hr. destruct Hr as [Hr|[<-|[]]].
  - apply filter_In in Hr. now apply Hd.
  - exists enc. simpl.
    destruct (String.eqb_spec (json_dumps enc) EmptyString) as [He|_].
    + now apply (json_dumps_nonempty laws) in He.
    + apply (json_loads_dumps laws).
Qed.

Lemma loadable_rows (d : database) :
  loadable d ->
  forall sid name ej, In (sid, name, ej) (select_students d) -> truthy ej = true ->
    exists enc, json_loads (or_default ej EmptyString) = Ok enc.
Proof.
  intros Hd sid name ej Hin Ht. unfold select_students in Hin.
  apply in_map_iff in Hin. destruct Hin as [r [Heq Hr]]. inversion Heq; subst.
  now apply Hd.
Qed.

Lemma filter_filter {A : Type} (f g : A -> bool) (l : list A) :
  filter g (filter f l) = filter (fun x => f x && g x) l.
Proof.
  induction l as [|a l IH]; simpl; [reflexivity|].
  destruct (f a); simpl; [destruct (g a)|]; now rewrite IH.
Qed.

(** The cached ids equal to [sid], in terms of the rows read. *)
Lemma cached_ids_of (d : database) (sid : string) :
  filter (fun id => String.eqb id sid)
    (map (fun r => fst (fst r)) (filter (fun r => truthy (snd r)) (select_students d)))
  = map s_student_id
      (filter (fun r => truthy (s_face_encoding r))
         (filter (fun r => String.eqb (s_student_id r) sid) (students d))).
Proof.
  unfold select_students. induction (students d) as [|r l IH]; simpl; [reflexivity|].
  destruct (truthy (s_face_encoding r)) eqn:Ht; simpl.
  - destruct (String.eqb (s_student_id r) sid); simpl; rewrite ?Ht, IH; reflexivity.
  - destruct (String.eqb (s_student_id r) sid); simpl; rewrite ?Ht, IH; reflexivity.
Qed.

Lemma truthy_dumps (laws : provider_laws P) (enc : encoding) :
  truthy (Some (json_dumps enc)) = true /\
  or_default (Some (json_dumps enc)) EmptyString = json_dumps enc.
Proof.
  simpl. destruct (String.eqb_spec (json_dumps enc) EmptyString) as [He|_].
  - now apply (json_dumps_nonempty laws) in He.
  - now split.
Qed.

End Registration.

Section Reregistration.

Context {P : FaceProvider}.
Hypothesis laws : provider_laws P.

(** What one successful detection leaves behind, whatever the state before:
    one row for the id, holding the new encoding; every cached entry of the
    id is that encoding; and, when the table reads back, the cache has the
    id exactly once and the call reports success. *)
Lemma register_student_effect (clk : clock) (student_id name : string)
    (image_file : upload) (img : image) (enc : encoding) (others : list encoding)
    (st : system) :
  load_image_file image_file = Ok img ->
  face_encodings img None = enc :: others ->
  let st' := after (AttendanceSystem.register_student clk student_id name image_file) st in
  filter (fun r => String.eqb (s_student_id r) student_id) (students (db st'))
  = [registered_row (db st) (now clk) student_id name (json_dumps enc)] /\
  (forall i, nth_error (known_face_ids st') i = Some student_id ->
             nth_error (known_face_encodings st') i = Some enc) /\
  (loadable (db st) ->
   returned (AttendanceSystem.register_student clk student_id name image_file) st
   = Ok (true, "Student registered successfully"%string) /\
   filter (fun id => String.eqb id student_id) (known_face_ids st') = [student_id] /\
   loadable (db st')).
Proof.
  intros Hload Hfaces st'.
  pose proof (register_student_run clk student_id name _ st Hload Hfaces) as Hrun.
  cbv zeta in Hrun. unfold st', after, returned. rewrite Hrun. simpl.
  set (d := upsert_student (db st) (now clk) student_id name (json_dumps enc)) in *.
  pose proof (upsert_student_unique (db st) (now clk) student_id name (json_dumps enc))
    as Huniq. fold d in Huniq.
  split; [exact Huniq|]. split.
  - destruct (loaded_sound (select_students d) [] []) as [extra [Heq Hextra]].
    rewrite Heq. simpl. intros i Hi.
    rewrite nth_error_map in Hi |- *.
    destruct (nth_error extra i) as [[sid e]|] eqn:Hnth; [|discriminate].
    simpl in Hi |- *. inversion Hi; subst sid. f_equal.
    destruct (Hextra _ _ (nth_error_In _ _ Hnth)) as [n [ej [Hin [Ht Hl]]]].
    unfold select_students in Hin. apply in_map_iff in Hin.
    destruct Hin as [r [Heq' Hr]]. injection Heq' as Hsid Hname Hej.
    assert (Hr' : In r (filter (fun r0 => String.eqb (s_student_id r0) student_id)
                          (students d))).
    { apply filter_In. split; [exact Hr|]. rewrite Hsid. apply String.eqb_refl. }
    rewrite Huniq in Hr'. subst ej.
    destruct Hr' as [Hr'|[]]. subst r. simpl in Hl.
    destruct (truthy_dumps laws enc) as [_ Hor]. simpl in Hor. rewrite Hor in Hl.
    rewrite (json_loads_dumps laws) in Hl. now inversion Hl.
  - intros Hok.
    assert (Hd : loadable d) by now apply upsert_student_loadable.
    destruct (loaded_complete (select_students d) [] [] (loadable_rows Hd)) as [H1 H2].
    rewrite H1, H2. simpl. split; [reflexivity|]. split; [|exact Hd].
    rewrite cached_ids_of, Huniq. simpl.
    destruct (truthy_dumps laws enc) as [Ht _]. simpl in Ht. now rewrite Ht.
Qed.

(** C4. Registering an id twice, each image yielding an encoding, leaves
    exactly one students row for the id, holding the second encoding; every
    cache entry of the id is the second encoding, so a later match that
    reports the id was made against the second encoding; and when the table
    reads back, the second call reports success and the reloaded cache has
    the id exactly once. *)
Theorem register_twice_replaces (clk1 clk2 : clock) (student_id name1 name2 : string)
    (file1 file2 : upload) (img1 img2 : image) (enc1 enc2 : encoding)
    (others1 others2 : list encoding) (st : system) :
  load_image_file file1 = Ok img1 -> face_encodings img1 None = enc1 :: others1 ->
  load_image_file file2 = Ok img2 -> face_encodings img2 None = enc2 :: others2 ->
  let st1 := after (AttendanceSystem.register_student clk1 student_id name1 file1) st in
  let st2 := after (AttendanceSystem.register_student clk2 student_id name2 file2) st1 in
  (exists row,
     filter (fun r => String.eqb (s_student_id r) student_id) (students (db st2)) = [row] /\
     s_name row = name2 /\ s_face_encoding row = Some (json_dumps enc2)) /\
  (forall i, nth_error (known_face_ids st2) i = Some student_id ->
             nth_error (known_face_encodings st2) i = Some enc2) /\
  (forall face res, matched st2 face res -> r_student_id res = student_id ->
     exists i, np_argmin (face_distance (known_face_encodings st2) face) = Ok i /\
               nth_error (known_face_encodings st2) i = Some enc2) /\
  (loadable (db st) ->
   returned (AttendanceSystem.register_student clk2 student_id name2 file2) st1
   = Ok (true, "Student registered successfully"%string) /\
   filter (fun id => String.eqb id student_id) (known_face_ids st2) = [student_id]).
Proof.
  intros Hl1 Hf1 Hl2 Hf2 st1 st2.
  destruct (register_student_effect clk1 student_id name1 _ st Hl1 Hf1) as [_ [_ H1]].
  destruct (register_student_effect clk2 student_id name2 _ st1 Hl2 Hf2) as [Hrow [Hcache H2]].
  fold st1 in H1. fold st2 in Hrow, Hcache, H2.
  split; [|split; [|split]].
  - eexists. split; [exact Hrow|]. now split.
  - exact Hcache.
  - intros face res [i [d [stored [Harg [_ [_ [Hsid _]]]]]]] Heq.
    exists i. split; [exact Harg|]. apply Hcache. now rewrite <- Heq.
  - intros Hok. destruct (H1 Hok) as [_ [_ Hst1]]. destruct (H2 Hst1) as [Hret [Hids _]].
    now split.
Qed.

End Reregistration.

(** ** Order on binary64 values, and numpy's argmin *)

Ltac cmp_cases :=
  repeat match goal with
  | |- context [Pos.compare_cont Eq ?a ?b] =>
      change (Pos.compare_cont Eq a b) with (Pos.compare a b)
  | H : context [Pos.compare_cont Eq ?a ?b] |- _ =>
      change (Pos.compare_cont Eq a b) with (Pos.compare a b) in H
  end;
  repeat match goal with
  | |- context [Z.compare ?a ?b] => destruct (Z.compare_spec a b)
  | H : context [Z.compare ?a ?b] |- _ => destruct (Z.compare_spec a b)
  | |- context [Pos.compare ?a ?b] => destruct (Pos.compare_spec a b)
  | H : context [Pos.compare ?a ?b] |- _ => destruct (Pos.compare_spec a b)
  end; simpl in *; try congruence; try lia.

Lemma SFcompare_refl (x : spec_float) : x <> S754_nan -> SFcompare x x = Some Eq.
Proof.
  destruct x as [s|s| |s m e]; simpl; intros H; try congruence.
  - now destruct s.
  - destruct s; rewrite Z.compare_refl;
      change (Pos.compare_cont Eq m m) with (Pos.compare m m);
      now rewrite Pos.compare_refl.
Qed.

Lemma SFcompare_some (x y : spec_float) :
  x <> S754_nan -> y <> S754_nan -> exists c, SFcompare x y = Some c.
Proof.
  destruct x as [s|s| |s m e], y as [s'|s'| |s' m' e']; simpl; intros;
    try congruence; eauto.
Qed.

Lemma SFcompare_antisym (x y : spec_float) (c : comparison) :
  SFcompare x y = Some c -> SFcompare y x = Some (CompOpp c).
Proof.
  destruct x as [s|s| |s m e], y as [s'|s'| |s' m' e']; simpl; try discriminate;
    try destruct s; try destruct s'; simpl; intros H; inversion H; subst; clear H;
    try reflexivity; f_equal; cmp_cases.
Qed.

Lemma SFcompare_trans (x y z : spec_float) (c1 c2 : comparison) :
  SFcompare x y = Some c1 -> SFcompare y z = Some c2 -> c1 <> Gt -> c2 <> Gt ->
  SFcompare x z = Some (match c1, c2 with Eq, Eq => Eq | _, _ => Lt end).
Proof.
  destruct x as [sx|sx| |sx mx ex], y as [sy|sy| |sy my ey], z as [sz|sz| |sz mz ez];
    simpl; try discriminate;
    try destruct sx; try destruct sy; try destruct sz; simpl;
    intros H1 H2; inversion H1; inversion H2; subst; clear H1 H2; intros;
    try congruence; f_equal; cmp_cases.
Qed.

Lemma is_nan_false (x : float) : PrimFloat.is_nan x = false -> Prim2SF x <> S754_nan.
Proof.
  unfold PrimFloat.is_nan. rewrite eqb_spec. unfold SFeqb.
  intros H Hn. rewrite Hn in H. discriminate.
Qed.

Lemma float_leb_total (x y : float) :
  PrimFloat.is_nan x = false -> PrimFloat.is_nan y = false ->
  PrimFloat.leb x y = false -> PrimFloat.ltb y x = true.
Proof.
  intros Hx Hy. rewrite leb_spec, ltb_spec. unfold SFleb, SFltb.
  destruct (SFcompare_some (is_nan_false _ Hx) (is_nan_false _ Hy)) as [c Hc].
  rewrite Hc, (SFcompare_antisym _ _ Hc). now destruct c.
Qed.

Lemma float_leb_refl (x : float) : PrimFloat.is_nan x = false -> PrimFloat.leb x x = true.
Proof.
  intros Hx. rewrite leb_spec. unfold SFleb.
  now rewrite (SFcompare_refl (is_nan_false _ Hx)).
Qed.

Lemma float_ltb_leb (x y : float) : PrimFloat.ltb x y = true -> PrimFloat.leb x y = true.
Proof.
  rewrite leb_spec, ltb_spec. unfold SFleb, SFltb.
  now destruct (SFcompare (Prim2SF x) (Prim2SF y)) as [[| |]|].
Qed.

Lemma float_leb_trans (x y z : float) :
  PrimFloat.leb x y = true -> PrimFloat.leb y z = true -> PrimFloat.leb x z = true.
Proof.
  rewrite !leb_spec. unfold SFleb.
  destruct (SFcompare (Prim2SF x) (Prim2SF y)) as [c1|] eqn:H1; [|discriminate].
  destruct (SFcompare (Prim2SF y) (Prim2SF z)) as [c2|] eqn:H2; [|destruct c1; discriminate].
  intros Hc1 Hc2.
  rewrite (SFcompare_trans _ _ _ H1 H2) by (destruct c1, c2; congruence).
  now destruct c1, c2.
Qed.

Lemma float_ltb_leb_trans (x y z : float) :
  PrimFloat.ltb x y = true -> PrimFloat.leb y z = true -> PrimFloat.ltb x z = true.
Proof.
  rewrite leb_spec, !ltb_spec. unfold SFleb, SFltb.
  destruct (SFcompare (Prim2SF x) (Prim2SF y)) as [c1|] eqn:H1; [|discriminate].
  destruct (SFcompare (Prim2SF y) (Prim2SF z)) as [c2|] eqn:H2; [|destruct c1; discriminate].
  intros Hc1 Hc2.
  rewrite (SFcompare_trans _ _ _ H1 H2) by (destruct c1, c2; congruence).
  now destruct c1, c2.
Qed.

(** The index numpy returns lies within the array. *)
Lemma argmin_from_range (l : list float) (mp : float) (k i : nat) :
  argmin_from mp k i l = k \/
  (i <= argmin_from mp k i l < i + List.length l)%nat.
Proof.
  revert mp k i. induction l as [|x l IH]; intros mp k i; simpl; [now left|].
  destruct (PrimFloat.leb mp x); simpl.
  - destruct (IH mp k (S i)) as [->|H]; [now left|right; lia].
  - destruct (PrimFloat.is_nan x); [right; lia|].
    destruct (IH x i (S i)) as [->|H]; right; lia.
Qed.

(** Without NaN, the scan ends on the first smallest value: either the
    running minimum stands, below or equal to everything scanned, or a
    strictly smaller value was found at the returned index. *)
Lemma argmin_from_min (l : list float) (mp : float) (k i : nat) :
  PrimFloat.is_nan mp = false ->
  (forall x, In x l -> PrimFloat.is_nan x = false) ->
  (argmin_from mp k i l = k /\ forall x, In x l -> PrimFloat.leb mp x = true) \/
  (exists j d, argmin_from mp k i l = (i + j)%nat /\ nth_error l j = Some d /\
     PrimFloat.ltb d mp = true /\
     (forall x, In x l -> PrimFloat.leb d x = true) /\
     (forall j' y, (j' < j)%nat -> nth_error l j' = Some y -> PrimFloat.ltb d y = true)).
Proof.
  revert mp k i. induction l as [|x l IH]; intros mp k i Hmp Hl; simpl.
  - left. split; [reflexivity|]. intros ? [].
  - assert (Hx : PrimFloat.is_nan x = false) by (apply Hl; now left).
    assert (Hl' : forall y, In y l -> PrimFloat.is_nan y = false)
      by (intros; apply Hl; now right).
    destruct (PrimFloat.leb mp x) eqn:Hle; simpl.
    + destruct (IH mp k (S i) Hmp Hl') as [[Heq Hall]|[j [d [Heq [Hn [Hlt [Hall Hfirst]]]]]]].
      * left. split; [exact Heq|]. intros y [<-|Hy]; auto.
      * right. exists (S j), d. split; [rewrite Heq; lia|]. split; [exact Hn|].
        split; [exact Hlt|]. split.
        -- intros y [<-|Hy]; auto.
           apply float_ltb_leb. eapply float_ltb_leb_trans; eauto.
        -- intros [|j'] y Hj Hy; simpl in Hy.
           ++ inversion Hy; subst. eapply float_ltb_leb_trans; eauto.
           ++ apply (Hfirst j'); [lia|exact Hy].
    + rewrite Hx. pose proof (float_leb_total Hmp Hx Hle) as Hlt.
      right.
      destruct (IH x i (S i) Hx Hl') as [[Heq Hall]|[j [d [Heq [Hn [Hlt' [Hall Hfirst]]]]]]].
      * exists 0%nat, x. split; [rewrite Heq; lia|]. split; [reflexivity|].
        split; [exact Hlt|]. split.
        -- intros y [<-|Hy]; [now apply float_leb_refl|auto].
        -- intros j' y Hj. lia.
      * exists (S j), d. split; [rewrite Heq; lia|]. split; [exact Hn|].
        split; [eapply float_ltb_leb_trans; eauto using float_ltb_leb|]. split.
        -- intros y [<-|Hy]; auto. now apply float_ltb_leb.
        -- intros [|j'] y Hj Hy; simpl in Hy.
           ++ now inversion Hy; subst.
           ++ apply (Hfirst j'); [lia|exact Hy].
Qed.

(** On a non-empty array, [np_argmin] returns an index of the array. *)
Lemma np_argmin_range (l : list float) :
  l <> [] -> exists i d, np_argmin l = Ok i /\ nth_error l i = Some d.
Proof.
  destruct l as [|x l]; [congruence|]. intros _. simpl.
  destruct (PrimFloat.is_nan x); [exists 0%nat, x; now split|].
  destruct (argmin_from_range l x 0 1) as [Heq|Hr].
  - exists 0%nat, x. now rewrite Heq.
  - destruct (nth_error (x :: l) (argmin_from x 0 1 l)) as [d|] eqn:Hn.
    + eauto.
    + apply nth_error_None in Hn. simpl in Hn. lia.
Qed.

(** Without NaN, the index is that of the first smallest value. *)
Lemma np_argmin_first_min (l : list float) (i : nat) (d : float) :
  (forall x, In x l -> PrimFloat.is_nan x = false) ->
  np_argmin l = Ok i -> nth_error l i = Some d ->
  (forall x, In x l -> PrimFloat.leb d x = true) /\
  (forall j y, (j < i)%nat -> nth_error l j = Some y -> PrimFloat.ltb d y = true).
Proof.
  destruct l as [|x l]; [discriminate|]. intros Hl Harg Hd. simpl in Harg.
  assert (Hx : PrimFloat.is_nan x = false) by (apply Hl; now left).
  assert (Hl' : forall y, In y l -> PrimFloat.is_nan y = false)
    by (intros; apply Hl; now right).
  rewrite Hx in Harg. inversion Harg as [Hi]. clear Harg.
  destruct (@argmin_from_min l x 0 1 Hx Hl') as [[Heq Hall]|[j [d' [Heq [Hn [Hlt [Hall Hfirst]]]]]]].
  - rewrite Heq in Hi. subst i. simpl in Hd. inversion Hd; subst d. split.
    + intros y [<-|Hy]; [now apply float_leb_refl|auto].
    + intros j y Hj. lia.
  - rewrite Heq in Hi. subst i. simpl in Hd. rewrite Hn in Hd. inversion Hd; subst d'.
    split.
    + intros y [<-|Hy]; [now apply float_ltb_leb|auto].
    + intros [|j'] y Hj Hy; simpl in Hy.
      * now inversion Hy; subst.
      * apply (Hfirst j'); [lia|exact Hy].
Qed.

(** ** Marking *)

Lemma swept_students (stamp date : string) (present_students ids : list string)
    (d : database) :
  students (swept d stamp date present_students ids) = students d.
Proof.
  revert d. induction ids as [|sid ids IH]; intros d; simpl; [reflexivity|].
  now rewrite IH.
Qed.

(** The sweep adds one row per id, in order, and touches no earlier row. *)
Lemma swept_attendance (stamp date : string) (present_students ids : list string)
    (d : database) :
  exists news,
    attendance (swept d stamp date present_students ids) = attendance d ++ news /\
    map says news
    = map (fun sid => (Some sid, Some date,
                       Some (swept_status present_students sid), stamp)) ids.
Proof.
  revert d. induction ids as [|sid ids IH]; intros d; simpl.
  - exists []. now rewrite app_nil_r.
  - destruct (IH (upsert_attendance d stamp (Some sid) (Some date)
                    (Some (swept_status present_students sid)))) as [news [Heq Hsays]].
    rewrite upsert_attendance_appends in Heq.
    eexists (_ :: news). split.
    + rewrite Heq, <- app_assoc. reflexivity.
    + simpl. now rewrite Hsays.
Qed.

Section Marking.

Context {P : FaceProvider}.
Hypothesis laws : provider_laws P.

Lemma sweep_run (clk : clock) (present_students : list string) (st : system) :
  sweep clk present_students st
  = (Ok tt,
     {| db := swept (db st) (now clk) (today clk) present_students
                (select_student_ids (db st));
        known_face_encodings := known_face_encodings st;
        known_face_ids := known_face_ids st |}).
Proof.
  unfold sweep, bind, query. fold (swept_status present_students).
  generalize (select_student_ids (db st)). intros ids. revert st.
  induction ids as [|sid ids IH]; intros st; simpl.
  - destruct st; reflexivity.
  - unfold bind, execute at 1. rewrite IH. reflexivity.
Qed.

(** One face against a cache in lockstep: the decision at the index numpy
    returns settles whether an entry is appended. *)
Lemma match_face_run (st : system) (present_students : list string)
    (attendance_results : list result) (face : encoding) :
  lockstep st -> known_face_encodings st <> [] ->
  let known := known_face_encodings st in
  exists i d hit student_id stored,
    np_argmin (face_distance known face) = Ok i /\
    nth_error (face_distance known face) i = Some d /\
    nth_error (compare_faces known face) i = Some hit /\
    nth_error (known_face_ids st) i = Some student_id /\
    nth_error known i = Some stored /\
    match_face (present_students, attendance_results) face st
    = (Ok (if hit
           then (present_students ++ [student_id],
                 attendance_results ++ [present_result (db st) student_id d])
           else (present_students, attendance_results)), st).
Proof.
  intros Hlock Hne. cbv zeta. set (known := known_face_encodings st) in *.
  assert (Hlen : List.length (face_distance known face) = List.length known)
    by apply (face_distance_length laws).
  assert (Hdne : face_distance known face <> []).
  { intros H0. rewrite H0 in Hlen. destruct known; [congruence|discriminate]. }
  destruct (np_argmin_range Hdne) as [i [d [Harg Hd]]].
  assert (Hi : (i < List.length known)%nat).
  { rewrite <- Hlen. apply nth_error_Some. congruence. }
  destruct (nth_error (compare_faces known face) i) as [hit|] eqn:Hhit.
  2:{ apply nth_error_None in Hhit. rewrite (compare_faces_length laws) in Hhit. lia. }
  destruct (nth_error (known_face_ids st) i) as [sid|] eqn:Hsid.
  2:{ apply nth_error_None in Hsid. unfold lockstep in Hlock. fold known in Hlock. lia. }
  destruct (nth_error known i) as [stored|] eqn:Hst.
  2:{ apply nth_error_None in Hst. lia. }
  exists i, d, hit, sid, stored. repeat (split; [assumption || reflexivity|]).
  unfold match_face, bind, get_cache, lift, query, ret, index. fold known.
  assert (Hpos : (0 <? List.length (face_distance known face))%nat = true).
  { apply Nat.ltb_lt. rewrite Hlen. lia. }
  rewrite Hpos, Harg, Hhit. destruct hit; [|reflexivity].
  rewrite Hsid, Hd. reflexivity.
Qed.

Lemma match_face_empty (st : system) (acc : list string * list result) (face : encoding) :
  known_face_encodings st = [] -> match_face acc face st = (Ok acc, st).
Proof.
  intros Hk. destruct acc as [p r]. unfold match_face, bind, get_cache. rewrite Hk.
  pose proof (face_distance_length laws [] face) as Hlen.
  destruct (face_distance [] face); [reflexivity|discriminate].
Qed.

End Marking.

Section MarkingClaims.

Context {P : FaceProvider}.
Hypothesis laws : provider_laws P.

(** C5. For a detected face and a non-empty cache, numpy's argmin picks an
    index of the distance vector (without NaN: the first index of a smallest
    distance); the student at that index is appended as Present exactly when
    the decision of compare_faces at that same index is true, and when it is
    false the face adds no result and no Present id. *)
Theorem match_face_decision (st : system) (present_students : list string)
    (attendance_results : list result) (face : encoding) :
  lockstep st -> known_face_encodings st <> [] ->
  let known := known_face_encodings st in
  exists i d hit student_id,
    np_argmin (face_distance known face) = Ok i /\
    nth_error (face_distance known face) i = Some d /\
    ((forall x, In x (face_distance known face) -> PrimFloat.is_nan x = false) ->
     (forall x, In x (face_distance known face) -> PrimFloat.leb d x = true) /\
     (forall j y, (j < i)%nat -> nth_error (face_distance known face) j = Some y ->
                  PrimFloat.ltb d y = true)) /\
    nth_error (compare_faces known face) i = Some hit /\
    nth_error (known_face_ids st) i = Some student_id /\
    (hit = true ->
     match_face (present_students, attendance_results) face st
     = (Ok (present_students ++ [student_id],
            attendance_results ++ [present_result (db st) student_id d]), st)) /\
    (hit = false ->
     match_face (present_students, attendance_results) face st
     = (Ok (present_students, attendance_results), st)).
Proof.
  intros Hlock Hne. cbv zeta.
  destruct (match_face_run laws present_students attendance_results face Hlock Hne)
    as [i [d [hit [sid [stored [Harg [Hd [Hhit [Hsid [_ Hrun]]]]]]]]]].
  exists i, d, hit, sid. repeat (split; [assumption|]).
  split; [intros Hnan; now apply np_argmin_first_min|].
  repeat (split; [assumption|]).
  split; intros ->; exact Hrun.
Qed.

Lemma for_fold_cons {A S : Type} (x : A) (rest : list A) (acc : S)
    (body : S -> A -> M S) (st : system) :
  for_fold (x :: rest) acc body st
  = match body acc x st with
    | (Ok acc', st') => for_fold rest acc' body st'
    | (Raise msg, st') => (Raise msg, st')
    end.
Proof. reflexivity. Qed.

(** The loop over the faces: it returns, leaves the state alone, and every
    entry it appends is the match of one of the faces. *)
Lemma match_faces_run (st : system) (faces : list encoding)
    (present_students : list string) (attendance_results : list result) :
  lockstep st ->
  exists news,
    for_fold faces (present_students, attendance_results) match_face st
    = (Ok (present_students ++ map r_student_id news, attendance_results ++ news), st) /\
    forall res, In res news -> exists face, In face faces /\ matched st face res.
Proof.
  intros Hlock. revert present_students attendance_results.
  induction faces as [|face faces IH]; intros p r.
  - exists []. simpl. rewrite !app_nil_r. split; [reflexivity|]. intros ? [].
  - rewrite for_fold_cons.
    destruct (known_face_encodings st) as [|k ks] eqn:Hk.
    + rewrite (match_face_empty laws st (p, r) face Hk).
      destruct (IH p r) as [news [Hrun Hnews]]. exists news. split; [exact Hrun|].
      intros res Hres. destruct (Hnews res Hres) as [f [Hf Hm]]. exists f. split; [now right|exact Hm].
    + assert (Hne : known_face_encodings st <> []) by congruence.
      destruct (match_face_run laws p r face Hlock Hne)
        as [i [d [hit [sid [stored [Harg [Hd [Hhit [Hsid [Hst Hrun]]]]]]]]]].
      rewrite Hrun. destruct hit.
      * destruct (IH (p ++ [sid]) (r ++ [present_result (db st) sid d]))
          as [news [Hfold Hnews]].
        exists (present_result (db st) sid d :: news). split.
        -- rewrite Hfold. simpl. now rewrite <- !app_assoc.
        -- intros res [<-|Hres].
           ++ exists face. split; [now left|]. exists i, d, stored. simpl. auto 10.
           ++ destruct (Hnews res Hres) as [f [Hf Hm]]. exists f. split; [now right|exact Hm].
      * destruct (IH p r) as [news [Hfold Hnews]]. exists news. split; [exact Hfold|].
        intros res Hres. destruct (Hnews res Hres) as [f [Hf Hm]]. exists f. split; [now right|exact Hm].
Qed.

(** [mark_attendance] on a loadable image and a cache in lockstep returns
    the matches of the faces and leaves the swept store. *)
Lemma mark_attendance_run (clk : clock) (source : image_source) (img : image)
    (st : system) :
  image_of source = Ok img -> lockstep st ->
  exists results,
    AttendanceSystem.mark_attendance clk source st
    = (Ok results,
       {| db := swept (db st) (now clk) (today clk) (map r_student_id results)
                  (select_student_ids (db st));
          known_face_encodings := known_face_encodings st;
          known_face_ids := known_face_ids st |}) /\
    forall res, In res results -> exists face, In face (faces_of img) /\ matched st face res.
Proof.
  intros Himg Hlock.
  destruct (match_faces_run (faces_of img) [] [] Hlock) as [results [Hfold Hres]].
  exists results. split; [|exact Hres].
  unfold AttendanceSystem.mark_attendance, bind at 1.
  assert (Hsrc : match source with
                 | LiveFeed frame => ret frame
                 | FromFile image_file => lift (load_image_file image_file)
                 end st = (Ok img, st)).
  { destruct source; simpl in Himg; unfold ret, lift; now rewrite Himg. }
  rewrite Hsrc. unfold bind at 1. unfold faces_of in Hfold. rewrite Hfold. simpl.
  unfold bind. rewrite sweep_run. reflexivity.
Qed.

(** C6. Every result [mark_attendance] returns is a Present entry for a
    detected face, and its confidence is 1 minus the entry, at the index
    numpy picked, of the distances between that face and the stored
    encodings: the distance to the matched stored encoding. *)
Theorem confidence_is_one_minus_distance (clk : clock) (source : image_source)
    (img : image) (st : system) :
  image_of source = Ok img -> lockstep st ->
  exists results,
    returned (AttendanceSystem.mark_attendance clk source) st = Ok results /\
    forall res, In res results ->
      exists face i d stored,
        In face (faces_of img) /\
        np_argmin (face_distance (known_face_encodings st) face) = Ok i /\
        nth_error (known_face_encodings st) i = Some stored /\
        nth_error (known_face_ids st) i = Some (r_student_id res) /\
        nth_error (face_distance (known_face_encodings st) face) i = Some d /\
        r_status res = "Present"%string /\
        r_confidence res = PrimFloat.sub PrimFloat.one d.
Proof.
  intros Himg Hlock.
  destruct (mark_attendance_run clk source Himg Hlock) as [results [Hrun Hres]].
  exists results. unfold returned. rewrite Hrun. split; [reflexivity|].
  intros res Hin. destruct (Hres res Hin) as [face [Hface Hm]].
  destruct Hm as [i [d [stored [Harg [Hd [_ [Hsid [Hst Heq]]]]]]]].
  exists face, i, d, stored. repeat (split; [assumption|]).
  rewrite Heq. now split.
Qed.

End MarkingClaims.

Section MissingEncoding.

Context {P : FaceProvider}.
Hypothesis laws : provider_laws P.

(** A reload leaves the cache in lockstep, and the store as it was. *)
Lemma load_known_faces_lockstep (st : system) :
  lockstep (after AttendanceSystem.load_known_faces st) /\
  db (after AttendanceSystem.load_known_faces st) = db st.
Proof.
  unfold after. rewrite load_known_faces_run. simpl. split; [|reflexivity].
  destruct (loaded_sound (select_students (db st)) [] []) as [extra [Heq _]].
  unfold lockstep. rewrite Heq. simpl. now rewrite !length_map.
Qed.

(** A reload caches only ids of rows that carry an encoding. *)
Lemma load_known_faces_ids (st : system) (student_id : string) :
  In student_id (known_face_ids (after AttendanceSystem.load_known_faces st)) ->
  exists r, In r (students (db st)) /\ s_student_id r = student_id /\
            truthy (s_face_encoding r) = true.
Proof.
  unfold after. rewrite load_known_faces_run. simpl.
  destruct (loaded_sound (select_students (db st)) [] []) as [extra [Heq Hextra]].
  rewrite Heq. simpl. intros Hin. apply in_map_iff in Hin.
  destruct Hin as [[sid enc] [Hsid Hin]]. simpl in Hsid. subst sid.
  destruct (Hextra _ _ Hin) as [name [ej [Hrow [Ht _]]]].
  unfold select_students in Hrow. apply in_map_iff in Hrow.
  destruct Hrow as [r [Heq' Hr]]. injection Heq' as Hs Hn He. subst ej.
  exists r. auto.
Qed.

Lemma is_in_false (student_id : string) (l : list string) :
  ~ In student_id l -> is_in student_id l = false.
Proof.
  intros Hn. unfold is_in. destruct (existsb (String.eqb student_id) l) eqn:He; [|reflexivity].
  apply existsb_exists in He. destruct He as [x [Hx Heq]].
  apply String.eqb_eq in Heq. now subst x.
Qed.

(** C10. A student whose row has a null or empty face_encoding is left out
    of both cache lists by the reload; after it, a mark_attendance call on
    any image returns no result for that student, and its sweep, which goes
    over every students row, still adds an attendance row for the student
    and today, with status Absent. *)
Theorem missing_encoding_marked_absent (clk : clock) (source : image_source)
    (img : image) (st : system) (student_id : string) :
  image_of source = Ok img ->
  In student_id (select_student_ids (db st)) ->
  (forall r, In r (students (db st)) -> s_student_id r = student_id ->
             truthy (s_face_encoding r) = false) ->
  let reloaded := after AttendanceSystem.load_known_faces st in
  ~ In student_id (known_face_ids reloaded) /\
  List.length (known_face_encodings reloaded) = List.length (known_face_ids reloaded) /\
  exists results news,
    returned (AttendanceSystem.mark_attendance clk source) reloaded = Ok results /\
    (forall res, In res results -> r_student_id res <> student_id) /\
    attendance (db (after (AttendanceSystem.mark_attendance clk source) reloaded))
    = attendance (db st) ++ news /\
    In (Some student_id, Some (today clk), Some "Absent"%string, now clk)
       (map says news) /\
    (forall a, In a news -> a_student_id a = Some student_id ->
               a_status a = Some "Absent"%string).
Proof.
  intros Himg Hknown Hnull reloaded.
  destruct (load_known_faces_lockstep st) as [Hlock Hdb]. fold reloaded in Hlock, Hdb.
  assert (Hout : ~ In student_id (known_face_ids reloaded)).
  { intros Hin. destruct (load_known_faces_ids st _ Hin) as [r [Hr [Hs Ht]]].
    rewrite (Hnull r Hr Hs) in Ht. discriminate. }
  split; [exact Hout|]. split; [symmetry; exact Hlock|].
  destruct (mark_attendance_run laws clk source Himg Hlock) as [results [Hrun Hres]].
  assert (Hnot : forall res, In res results -> r_student_id res <> student_id).
  { intros res Hin Heq. destruct (Hres res Hin) as [face [_ Hm]].
    destruct Hm as [i [d [stored [_ [_ [_ [Hsid _]]]]]]].
    apply Hout. rewrite <- Heq. eapply nth_error_In; eauto. }
  assert (Habs : swept_status (map r_student_id results) student_id = "Absent"%string).
  { unfold swept_status. rewrite is_in_false; [reflexivity|].
    intros Hin. apply in_map_iff in Hin. destruct Hin as [res [Heq Hin]].
    now apply (Hnot res Hin). }
  destruct (swept_attendance (now clk) (today clk) (map r_student_id results)
              (select_student_ids (db reloaded)) (db reloaded)) as [news [Hatt Hsays]].
  exists results, news. unfold returned, after. rewrite Hrun. simpl.
  split; [reflexivity|]. split; [exact Hnot|].
  rewrite Hdb in Hsays. split; [rewrite Hatt, Hdb; reflexivity|]. split.
  - rewrite Hsays, <- Habs.
    apply (in_map (fun sid => (Some sid, Some (today clk),
                               Some (swept_status (map r_student_id results) sid),
                               now clk))).
    exact Hknown.
  - intros a Ha Hsid. apply (in_map says) in Ha. rewrite Hsays in Ha.
    apply in_map_iff in Ha. destruct Ha as [sid [Heq _]].
    unfold says in Heq. injection Heq as H1 H2 H3 H4.
    rewrite Hsid in H1. injection H1 as ->. now rewrite <- H3, Habs.
Qed.

End MissingEncoding.

(** ** The handlers' checks *)

Lemma append_nil_r (s : string) : (s ++ "")%string = s.
Proof. induction s as [|c s IH]; simpl; [reflexivity|now rewrite IH]. Qed.

Lemma append_assoc (a b c : string) : ((a ++ b) ++ c)%string = (a ++ (b ++ c))%string.
Proof. induction a as [|x a IH]; simpl; [reflexivity|now rewrite IH]. Qed.

Section Handlers.

Context {P : FaceProvider}.

(** Without an image, registration and marking answer false and write
    nothing. *)
Lemma route_register_no_image (clk : clock) (req : request) (st : system) :
  dict_get (files req) "image" = None ->
  register_student clk req st = (Ok (jsonify (Message false "No image provided")), st).
Proof. intros H. unfold register_student. now rewrite H. Qed.

Lemma route_mark_no_image (clk : clock) (req : request) (st : system) :
  dict_get (files req) "image" = None ->
  mark_attendance clk req st = (Ok (jsonify (Message false "No image provided")), st).
Proof. intros H. unfold mark_attendance. now rewrite H. Qed.

(** Without a student_id or a name (absent or empty), registration answers
    false and writes nothing. *)
Lemma route_register_no_field (clk : clock) (req : request) (st : system)
    (image_file : upload) :
  dict_get (files req) "image" = Some image_file ->
  truthy (dict_get (form req) "student_id") = false \/
  truthy (dict_get (form req) "name") = false ->
  register_student clk req st
  = (Ok (jsonify (Message false "Student ID and name are required")), st).
Proof.
  intros Hfile Hmiss. unfold register_student. rewrite Hfile.
  destruct Hmiss as [-> | ->]; simpl; [reflexivity|].
  now rewrite orb_true_r.
Qed.

(** The manual update checks nothing: whatever the body holds, it writes a
    row and answers true. *)
Lemma update_attendance_run (clk : clock) (req : request) (st : system) :
  update_attendance clk req st
  = (Ok (jsonify (Message true "Attendance updated")),
     {| db := upsert_attendance (db st) (now clk)
                (dict_get (json req) "student_id") (dict_get (json req) "date")
                (dict_get (json req) "status");
        known_face_encodings := known_face_encodings st;
        known_face_ids := known_face_ids st |}).
Proof. reflexivity. Qed.

Lemma export_attendance_run (date : string) (st : system) :
  export_attendance date st
  = (Ok {| status_code := 200;
           headers := [("Content-Type", "text/csv");
                       ("Content-Disposition",
                        "attachment; filename=attendance_" ++ date ++ ".csv")]%string;
           payload := Text (csv_header
                            ++ String.concat "" (map (csv_line date)
                                                   (select_roster (db st) date))) |},
     st).
Proof.
  unfold export_attendance, bind, query, ret. do 3 f_equal.
  generalize csv_header. induction (select_roster (db st) date) as [|r l IH]; intros h.
  - simpl. now rewrite append_nil_r.
  - simpl fold_left. rewrite IH.
    replace (String.concat "" (map (csv_line date) (r :: l)))
      with (csv_line date r ++ String.concat "" (map (csv_line date) l))%string.
    + now rewrite append_assoc.
    + simpl. destruct (map (csv_line date) l) eqn:Hl; [|reflexivity].
      simpl. now rewrite append_nil_r.
Qed.

End Handlers.

(** When no student has two attendance rows for the date, the roster has one
    row per student. *)
Lemma select_roster_length (d : database) (date : string) :
  (forall s, In s (students d) -> (List.length (rows_for d (s_student_id s) date) <= 1)%nat) ->
  List.length (select_roster d date) = List.length (students d).
Proof.
  intros Huniq. unfold select_roster.
  rewrite (Permutation_length (order_by_student_id_perm _)). unfold left_join.
  induction (students d) as [|s l IH]; simpl; [reflexivity|].
  rewrite length_app, left_join_one_length, IH.
  - specialize (Huniq s (or_introl eq_refl)). lia.
  - intros s' Hs'. apply Huniq. now right.
Qed.

(** ** Marking and correcting twice on one day *)

(** Every write to attendance adds a row for its student and date, whatever
    the table already holds for them. *)
Lemma upsert_attendance_rows_for (d : database) (stamp student_id date : string)
    (status : option string) :
  rows_for (upsert_attendance d stamp (Some student_id) (Some date) status) student_id date
  = rows_for d student_id date
    ++ [written_row d stamp (Some student_id) (Some date) status].
Proof.
  unfold rows_for. rewrite upsert_attendance_appends, filter_app. simpl.
  now rewrite !String.eqb_refl.
Qed.

(** C1, on the code: the attendance table has no uniqueness constraint on
    (student_id, date), so INSERT OR REPLACE never replaces. Two manual
    updates of one student and date leave two rows for them, and so do two
    mark_attendance calls on one day. *)
Theorem attendance_rows_pile_up :
  List.length (rows_for (db Day.corrected_twice) "A1" "2024-03-01") = 2%nat /\
  List.length (rows_for (db Day.second_call) "A1" "2024-03-01") = 2%nat /\
  List.length (rows_for (db Day.second_call) "B2" "2024-03-01") = 2%nat.
Proof. vm_compute. repeat split. Qed.

(** C2, on the code: after a second mark_attendance call on the same day
    with another matched set (Bob instead of Ann), the listing of the day
    has four entries for the two students, and still shows Ann as Present,
    next to the Absent the second call wrote for her. *)
Theorem second_call_keeps_first :
  returned (AttendanceSystem.mark_attendance Toy.noon (@FromFile Toy.provider [21])) Day.first_call
  = Ok [ {| r_student_id := "B2"; r_name := "Bob"; r_status := "Present";
            r_confidence := 0.75%float |} ] /\
  exists listing,
    returned (get_attendance "2024-03-01") Day.second_call
    = Ok (jsonify (Listing "2024-03-01" listing)) /\
    List.length listing = 4%nat /\
    In {| e_student_id := "A1"; e_name := "Ann"; e_status := "Present";
          e_timestamp := Some "2024-03-01 08:00:00"%string |} listing /\
    In {| e_student_id := "A1"; e_name := "Ann"; e_status := "Absent";
          e_timestamp := Some "2024-03-01 12:00:00"%string |} listing.
Proof.
  split; [vm_compute; reflexivity|].
  eexists. split; [vm_compute; reflexivity|].
  split; [reflexivity|]. simpl. tauto.
Qed.

(** C8, on the code: with two known students and attendance marked twice on
    the day, the export has the header and four data lines, not two. *)
Theorem export_repeats_students :
  List.length (students (db Day.second_call)) = 2%nat /\
  exists csv_data,
    returned (export_attendance "2024-03-01") Day.second_call
    = Ok {| status_code := 200;
            headers := [("Content-Type", "text/csv");
                        ("Content-Disposition",
                         "attachment; filename=attendance_2024-03-01.csv")]%string;
            payload := Text csv_data |} /\
    newlines csv_data = 5%nat /\
    List.length (select_roster (db Day.second_call) "2024-03-01") = 4%nat.
Proof.
  split; [vm_compute; reflexivity|].
  eexists. split; [vm_compute; reflexivity|].
  split; vm_compute; reflexivity.
Qed.

(** C9, on the code: a manual update whose body has no student_id is
    answered with success true, and a row with a NULL student_id is
    written. *)
Theorem update_attendance_accepts_missing_field :
  returned (update_attendance Toy.noon Day.nameless) Day.registered
  = Ok (jsonify (Message true "Attendance updated")) /\
  attendance (db Day.registered) = [] /\
  attendance (db (after (update_attendance Toy.noon Day.nameless) Day.registered))
  = [ {| a_id := 1; a_student_id := None; a_date := Some "2024-03-01"%string;
         a_status := Some "Present"%string;
         a_timestamp := "2024-03-01 12:00:00" |} ].
Proof. vm_compute. repeat split. Qed.

(** ** The small provider keeps the laws, and the statements apply to it *)

Lemma xs_length (n : nat) : String.length (Toy.xs n) = n.
Proof. induction n as [|n IH]; simpl; [reflexivity|now rewrite IH]. Qed.

Lemma toy_laws : provider_laws Toy.provider.
Proof.
  constructor; simpl.
  - intros known e. apply length_map.
  - intros known e. apply length_map.
  - intros e. unfold Toy.loads, Toy.dumps. now rewrite xs_length.
  - intros e. discriminate.
Qed.

Lemma register_without_face_witness :
  AttendanceSystem.register_student Toy.morning "A1" "Ann" ([] : @upload Toy.provider) Toy.boot
  = (Ok (false, "No face detected in the image"%string), Toy.boot).
Proof.
  exact (proj1 (@register_without_face Toy.provider Toy.morning "A1"%string "Ann"%string
                  [] [] Toy.boot eq_refl eq_refl)).
Defined.

Lemma register_twice_replaces_witness :
  exists row,
    filter (fun r => String.eqb (s_student_id r) "A1") (students (db reregistered)) = [row] /\
    s_name row = "Anne"%string /\ s_face_encoding row = Some (Toy.dumps 12).
Proof.
  exact (proj1 (@register_twice_replaces Toy.provider toy_laws Toy.morning Toy.noon
                  "A1"%string "Ann"%string "Anne"%string [10] [12] [10] [12] 10 12 [] []
                  Toy.boot eq_refl eq_refl eq_refl eq_refl)).
Defined.

Lemma match_face_decision_witness :
  exists student_id d,
    match_face ([], []) (11 : @encoding Toy.provider) Day.registered
    = (Ok ([student_id], [present_result (db Day.registered) student_id d]),
       Day.registered).
Proof.
  destruct (@match_face_decision Toy.provider toy_laws Day.registered [] [] 11)
    as [i [d [hit [sid [Harg [Hd [_ [Hhit [_ [Hyes _]]]]]]]]]].
  - reflexivity.
  - discriminate.
  - exists sid, d. apply Hyes.
    vm_compute in Harg. injection Harg as <-. vm_compute in Hhit. now injection Hhit.
Defined.

Lemma confidence_is_one_minus_distance_witness :
  exists results,
    returned (AttendanceSystem.mark_attendance Toy.morning (@FromFile Toy.provider [11; 15])) Day.registered
    = Ok results.
Proof.
  destruct (@confidence_is_one_minus_distance Toy.provider toy_laws Toy.morning
              (@FromFile Toy.provider [11; 15]) [11; 15] Day.registered eq_refl eq_refl)
    as [results [Hret _]].
  exists results. exact Hret.
Defined.

Lemma get_attendance_not_recorded_witness :
  exists listing,
    get_attendance "2024-03-02" Day.registered
    = (Ok (jsonify (Listing "2024-03-02" listing)), Day.registered) /\
    Permutation listing (map not_recorded (students (db Day.registered))).
Proof.
  destruct (@get_attendance_not_recorded Toy.provider Day.registered "2024-03-02"
              eq_refl)
    as [listing [Hrun [Hnone _]]].
  exists listing. split; [exact Hrun|]. apply Hnone. intros a [].
Defined.

Lemma missing_encoding_marked_absent_witness :
  ~ In "C3"%string (known_face_ids (after AttendanceSystem.load_known_faces Day.with_blank)).
Proof.
  refine (proj1 (@missing_encoding_marked_absent Toy.provider toy_laws Toy.morning
                   (@FromFile Toy.provider [10]) [10] Day.with_blank "C3"%string
                   eq_refl _ _)).
  - simpl. auto.
  - intros r [<-|[<-|[]]]; simpl; [discriminate|reflexivity].
Defined.

(** * Further properties *)

(** ** What a request can do to the state *)

Section Frames.

Context {P : FaceProvider}.

(** Comparing a face reads the cache and the store and writes nothing,
    whether it returns or raises. *)
Lemma match_face_state (acc : list string * list result) (face : encoding)
    (st : system) :
  snd (match_face acc face st) = st.
Proof.
  destruct acc as [p r]. unfold match_face, bind, get_cache, lift, query, ret.
  repeat match goal with
         | |- context [if ?b then _ else _] => destruct b
         | |- context [match ?x with _ => _ end] => destruct x
         end; reflexivity.
Qed.

Lemma match_faces_state (faces : list encoding) (acc : list string * list result)
    (st : system) :
  snd (for_fold faces acc match_face st) = st.
Proof.
  revert acc. induction faces as [|face faces IH]; intros acc; [reflexivity|].
  rewrite for_fold_cons.
  pose proof (match_face_state acc face st) as Hst.
  destruct (match_face acc face st) as [[acc'|msg] st']; simpl in Hst; subst st'.
  - apply IH.
  - reflexivity.
Qed.

(** A marking either writes nothing (it raised before the sweep) or leaves
    the swept store; it never touches the cache. *)
Lemma mark_attendance_effect (clk : clock) (source : image_source) (st : system) :
  after (AttendanceSystem.mark_attendance clk source) st = st \/
  exists present_students,
    after (AttendanceSystem.mark_attendance clk source) st
    = {| db := swept (db st) (now clk) (today clk) present_students
                 (select_student_ids (db st));
         known_face_encodings := known_face_encodings st;
         known_face_ids := known_face_ids st |}.
Proof.
  unfold after, AttendanceSystem.mark_attendance, bind.
  assert (Hsrc : snd ((match source with
                        | LiveFeed frame => ret frame
                        | FromFile image_file => lift (load_image_file image_file)
                        end) st) = st).
  { destruct source; reflexivity. }
  destruct (match source with
            | LiveFeed frame => ret frame
            | FromFile image_file => lift (load_image_file image_file)
            end st) as [[img|msg] st0];
    simpl in Hsrc; subst st0; [|now left].
  pose proof (match_faces_state (face_encodings img (Some (face_locations img)))
                ([], []) st) as Hfold.
  destruct (for_fold (face_encodings img (Some (face_locations img))) ([], [])
              match_face st) as [[[present results]|msg] st1];
    simpl in Hfold; subst st1; [|now left].
  right. exists present.
  pose proof (sweep_run clk present st) as Hsweep. unfold sweep, bind in Hsweep |- *.
  rewrite Hsweep. reflexivity.
Qed.

(** A registration either writes nothing or leaves the store with the new
    row and the cache as the reload built it. *)
Lemma register_student_effect_cases (clk : clock) (student_id name : string)
    (image_file : upload) (st : system) :
  after (AttendanceSystem.register_student clk student_id name image_file) st = st \/
  exists enc,
    let d := upsert_student (db st) (now clk) student_id name (json_dumps enc) in
    after (AttendanceSystem.register_student clk student_id name image_file) st
    = {| db := d;
         known_face_encodings := fst (snd (loaded (select_students d) [] []));
         known_face_ids := snd (snd (loaded (select_students d) [] [])) |}.
Proof.
  destruct (load_image_file image_file) as [img|msg] eqn:Hload.
  - destruct (face_encodings img None) as [|enc others] eqn:Hfaces.
    + left. unfold after, AttendanceSystem.register_student, bind, lift.
      now rewrite Hload, Hfaces.
    + right. exists enc. cbv zeta. unfold after.
      now rewrite (register_student_run clk student_id name _ st Hload Hfaces).
  - left. unfold after, AttendanceSystem.register_student, bind, lift.
    now rewrite Hload.
Qed.

End Frames.

Section Effects.

Context {P : FaceProvider}.

Lemma after_bind_pure {A B : Type} (c : M A) (k : A -> M B) (st : system) :
  (forall a st', snd (k a st') = st') -> after (bind c k) st = after c st.
Proof.
  intros Hk. unfold after, bind. destruct (c st) as [[a|msg] st']; [apply Hk|reflexivity].
Qed.

(** Every request leaves the state as it was, or with a student written and
    the cache reloaded, or with the store swept, or with one attendance row
    written. *)
Lemma serve_effect (c : call) (st : system) :
  serve st c = st \/
  (exists clk student_id name enc,
     let d := upsert_student (db st) (now clk) student_id name (json_dumps enc) in
     serve st c
     = {| db := d;
          known_face_encodings := fst (snd (loaded (select_students d) [] []));
          known_face_ids := snd (snd (loaded (select_students d) [] [])) |}) \/
  (exists clk present_students,
     serve st c
     = {| db := swept (db st) (now clk) (today clk) present_students
                  (select_student_ids (db st));
          known_face_encodings := known_face_encodings st;
          known_face_ids := known_face_ids st |}) \/
  (exists clk student_id date status,
     serve st c
     = {| db := upsert_attendance (db st) (now clk) student_id date status;
          known_face_encodings := known_face_encodings st;
          known_face_ids := known_face_ids st |}).
Proof.
  destruct c as [clk req|clk req|date|clk req|date]; unfold serve, handle.
  - unfold register_student.
    destruct (dict_get (files req) "image") as [image_file|]; [|now left].
    destruct (negb (truthy (dict_get (form req) "student_id"))
              || negb (truthy (dict_get (form req) "name"))); [now left|].
    rewrite after_bind_pure by (intros [s m] st'; reflexivity).
    destruct (register_student_effect_cases clk
                (or_default (dict_get (form req) "student_id") EmptyString)
                (or_default (dict_get (form req) "name") EmptyString) image_file st)
      as [->|[enc Heq]]; [now left|].
    right. left. eexists clk, _, _, enc. exact Heq.
  - unfold mark_attendance.
    destruct (dict_get (files req) "image") as [image_file|]; [|now left].
    rewrite after_bind_pure by (intros a st'; reflexivity).
    destruct (mark_attendance_effect clk (FromFile image_file) st) as [->|[p Heq]];
      [now left|].
    right. right. left. exists clk, p. exact Heq.
  - now left.
  - right. right. right. eexists clk, _, _, _. reflexivity.
  - now left.
Qed.

End Effects.

(** ** Invariants of the service *)

Lemma insert_id_perm (x : string) (l : list string) :
  Permutation (insert_id x l) (x :: l).
Proof.
  induction l as [|y l IH]; simpl; [reflexivity|].
  destruct (String.leb x y); [reflexivity|]. rewrite IH. apply perm_swap.
Qed.

Lemma index_order_perm (l : list string) : Permutation (index_order l) l.
Proof.
  induction l as [|x l IH]; simpl; [reflexivity|].
  rewrite insert_id_perm. now constructor.
Qed.

(** The ids the index holds are those of the rows. *)
Lemma select_student_ids_perm (d : database) :
  Permutation (select_student_ids d) (map s_student_id (students d)).
Proof. apply index_order_perm. Qed.

Lemma in_select_student_ids (d : database) (x : string) :
  In x (select_student_ids d) <-> exists r, In r (students d) /\ s_student_id r = x.
Proof.
  split.
  - intros Hin. apply (Permutation_in _ (select_student_ids_perm d)) in Hin.
    apply in_map_iff in Hin. destruct Hin as [r [Hr Hin]]. now exists r.
  - intros [r [Hin Hr]].
    apply (Permutation_in _ (Permutation_sym (select_student_ids_perm d))).
    rewrite <- Hr. now apply in_map.
Qed.



Lemma select_student_ids_same (d d' : database) :
  students d = students d' -> select_student_ids d = select_student_ids d'.
Proof. intros H. unfold select_student_ids. now rewrite H. Qed.

(** Dropping rows keeps the ids of the rows that stay distinct. *)
Lemma unique_ids_filter (keep : student_row -> bool) (rows : list student_row) :
  NoDup (map s_student_id rows) -> NoDup (map s_student_id (filter keep rows)).
Proof.
  intros Hrows. induction rows as [|r rows IH]; [constructor|].
  simpl in Hrows. apply NoDup_cons_iff in Hrows. destruct Hrows as [Hfresh Hrest].
  simpl. destruct (keep r); [|now apply IH].
  simpl. apply NoDup_cons_iff. split; [|now apply IH].
  intros Hin. apply Hfresh. apply in_map_iff in Hin. destruct Hin as [r' [Hid Hin]].
  apply filter_In in Hin. rewrite <- Hid. now apply in_map.
Qed.

Lemma upsert_student_ids (d : database) (created student_id name encoding_json : string) :
  Permutation
    (select_student_ids (upsert_student d created student_id name encoding_json))
    (map s_student_id
       (filter (fun r => negb (String.eqb (s_student_id r) student_id)) (students d))
     ++ [student_id]).
Proof.
  rewrite select_student_ids_perm. now rewrite upsert_student_rows, map_app.
Qed.

Lemma upsert_student_keeps_unique (d : database)
    (created student_id name encoding_json : string) :
  NoDup (select_student_ids d) ->
  NoDup (select_student_ids (upsert_student d created student_id name encoding_json)).
Proof.
  intros Hd.
  apply (Permutation_NoDup (Permutation_sym (upsert_student_ids d created student_id
                                               name encoding_json))).
  apply (Permutation_NoDup (select_student_ids_perm d)) in Hd.
  apply NoDup_app.
  - now apply unique_ids_filter.
  - repeat constructor. intros [].
  - intros x Hin [<-|[]]. apply in_map_iff in Hin. destruct Hin as [r [Hr Hin]].
    apply filter_In in Hin. destruct Hin as [_ Hne].
    rewrite Hr, String.eqb_refl in Hne. discriminate.
Qed.

Lemma upsert_student_keeps_ids (d : database)
    (created student_id name encoding_json : string) (x : string) :
  In x (select_student_ids d) ->
  In x (select_student_ids (upsert_student d created student_id name encoding_json)).
Proof.
  intros Hin.
  apply (Permutation_in _ (Permutation_sym (upsert_student_ids d created student_id
                                              name encoding_json))).
  apply in_or_app.
  destruct (String.eqb_spec x student_id) as [->|Hne]; [right; now left|left].
  apply in_select_student_ids in Hin. destruct Hin as [r [Hin Hr]].
  apply in_map_iff. exists r. split; [exact Hr|].
  apply filter_In. split; [exact Hin|]. rewrite Hr.
  now apply negb_true_iff, String.eqb_neq.
Qed.

Section Invariants.

Context {P : FaceProvider}.

Lemma serve_never_deletes (c : call) (st : system) :
  extends (attendance (db st)) (attendance (db (serve st c))) /\
  incl (select_student_ids (db st)) (select_student_ids (db (serve st c))).
Proof.
  destruct (serve_effect c st)
    as [->|[[clk [sid [name [enc ->]]]]|[[clk [p ->]]|[clk [sid [date [status ->]]]]]]];
    cbn [db].
  - split; [exists []; now rewrite app_nil_r|apply incl_refl].
  - split; [exists []; now rewrite app_nil_r|].
    intros x Hx. now apply upsert_student_keeps_ids.
  - split.
    + destruct (swept_attendance (now clk) (today clk) p (select_student_ids (db st))
                  (db st)) as [news [Heq _]]. now exists news.
    + rewrite (select_student_ids_same _ (db st) (swept_students _ _ _ _ _)).
      apply incl_refl.
  - split; [|apply incl_refl]. rewrite upsert_attendance_appends. now eexists.
Qed.

(** X1. Whatever requests are served, in whatever order and with whatever
    outcome, no attendance row is ever deleted or changed (the table after
    starts with the table before), and no student_id ever leaves the
    students table. *)
Theorem serve_all_never_deletes (calls : list call) (st : system) :
  extends (attendance (db st)) (attendance (db (serve_all calls st))) /\
  incl (select_student_ids (db st)) (select_student_ids (db (serve_all calls st))).
Proof.
  unfold serve_all. revert st. induction calls as [|c calls IH]; intros st; simpl.
  - split; [exists []; now rewrite app_nil_r|apply incl_refl].
  - destruct (serve_never_deletes c st) as [[m1 H1] H2].
    destruct (IH (serve st c)) as [[m2 H3] H4]. split.
    + exists (m1 ++ m2). rewrite H3, H1. now rewrite app_assoc.
    + eapply incl_tran; eauto.
Qed.

Lemma serve_keeps_unique (c : call) (st : system) :
  ids_unique st -> ids_unique (serve st c).
Proof.
  unfold ids_unique. intros Hst.
  destruct (serve_effect c st)
    as [->|[[clk [sid [name [enc ->]]]]|[[clk [p ->]]|[clk [sid [date [status ->]]]]]]];
    simpl; try assumption.
  - now apply upsert_student_keeps_unique.
  - now rewrite (select_student_ids_same _ (db st) (swept_students _ _ _ _ _)).
Qed.

(** X2. The students table never comes to hold two rows with the same
    student_id: if it has none, it has none after any sequence of
    requests. *)
Theorem serve_all_keeps_ids_unique (calls : list call) (st : system) :
  ids_unique st -> ids_unique (serve_all calls st).
Proof.
  unfold serve_all. revert st.
  induction calls as [|c calls IH]; intros st Hst; simpl; [exact Hst|].
  apply IH. now apply serve_keeps_unique.
Qed.

Lemma serve_keeps_cache (c : call) (st : system) :
  lockstep st /\ cache_known st -> lockstep (serve st c) /\ cache_known (serve st c).
Proof.
  intros [Hlock Hknown].
  destruct (serve_effect c st)
    as [->|[[clk [sid [name [enc ->]]]]|[[clk [p ->]]|[clk [sid [date [status ->]]]]]]].
  - now split.
  - cbv zeta.
    set (d := upsert_student (db st) (now clk) sid name (json_dumps enc)).
    destruct (loaded_sound (select_students d) [] []) as [extra [Heq Hextra]].
    unfold lockstep, cache_known. simpl. rewrite Heq. simpl. split.
    + now rewrite !length_map.
    + intros x Hx. apply in_map_iff in Hx. destruct Hx as [[x' e] [Hfst Hin]].
      simpl in Hfst. subst x'.
      destruct (Hextra _ _ Hin) as [n [ej [Hrow _]]].
      unfold select_students in Hrow. apply in_map_iff in Hrow.
      destruct Hrow as [r [Hr Hrin]]. injection Hr as Hs _ _.
      apply in_select_student_ids. now exists r.
  - split; [exact Hlock|]. unfold cache_known. cbn [db known_face_ids].
    rewrite (select_student_ids_same _ (db st) (swept_students _ _ _ _ _)).
    exact Hknown.
  - split; [exact Hlock|exact Hknown].
Qed.

(** X3. The cache stays sound through any sequence of requests: the two
    lists keep the same length, and every cached id is the student_id of a
    students row. *)
Theorem serve_all_keeps_cache_sound (calls : list call) (st : system) :
  lockstep st -> cache_known st ->
  lockstep (serve_all calls st) /\ cache_known (serve_all calls st).
Proof.
  unfold serve_all. revert st.
  induction calls as [|c calls IH]; intros st Hl Hk; simpl; [now split|].
  destruct (@serve_keeps_cache c st (conj Hl Hk)) as [Hl2 Hk2]. now apply IH.
Qed.

End Invariants.

(** ** More on registration *)

Section RegistrationMore.

Context {P : FaceProvider}.

(** X4. A registration that found a face leaves the rows of every other
    student as they were, in the same order, and leaves the attendance
    table alone (the earlier attendance rows of a student who registers
    again stay). *)
Theorem register_keeps_other_rows (clk : clock) (student_id name : string)
    (image_file : upload) (img : image) (enc : encoding) (others : list encoding)
    (st : system) :
  load_image_file image_file = Ok img ->
  face_encodings img None = enc :: others ->
  let st' := after (AttendanceSystem.register_student clk student_id name image_file) st in
  filter (fun r => negb (String.eqb (s_student_id r) student_id)) (students (db st'))
  = filter (fun r => negb (String.eqb (s_student_id r) student_id)) (students (db st)) /\
  attendance (db st') = attendance (db st).
Proof.
  intros Hload Hfaces. cbv zeta. unfold after.
  rewrite (register_student_run clk student_id name _ st Hload Hfaces). cbn [snd db].
  split; [|reflexivity].
  rewrite upsert_student_rows, filter_app. cbn [filter registered_row s_student_id].
  rewrite String.eqb_refl. cbn [negb]. rewrite app_nil_r, filter_filter.
  apply filter_ext. intros r. now destruct (negb (String.eqb (s_student_id r) student_id)).
Qed.

(** The loop of the reload stops at the first encoding it cannot read. *)
Lemma loaded_app_raise (rows more : list (string * string * option string))
    (encs : list encoding) (ids : list string) (msg : string) :
  fst (loaded rows encs ids) = Raise msg ->
  loaded (rows ++ more) encs ids = loaded rows encs ids.
Proof.
  revert encs ids. induction rows as [|[[sid name] ej] rows IH]; intros encs ids; simpl.
  - discriminate.
  - destruct (truthy ej); [|apply IH].
    destruct (json_loads (or_default ej EmptyString)); [apply IH|reflexivity].
Qed.

Lemma loaded_raises (rows : list (string * string * option string))
    (encs : list encoding) (ids : list string) (sid name msg : string)
    (ej : option string) :
  In (sid, name, ej) rows -> truthy ej = true ->
  json_loads (or_default ej EmptyString) = Raise msg ->
  exists msg', fst (loaded rows encs ids) = Raise msg'.
Proof.
  revert encs ids. induction rows as [|[[sid0 name0] ej0] rows IH];
    intros encs ids Hin Ht Hl; [destruct Hin|]. simpl.
  destruct Hin as [Heq|Hin].
  - injection Heq as -> -> ->. rewrite Ht, Hl. now exists msg.
  - destruct (truthy ej0); [|now apply IH].
    destruct (json_loads (or_default ej0 EmptyString)) as [e|m]; [now apply IH|].
    now exists m.
Qed.

(** X5. When the table holds another student's encoding that cannot be
    read back, a registration that found a face answers
    (False, "Error: ...") although its row has been written and committed;
    the reload it triggered stopped early, and the student just registered
    is not in the cache. *)
Theorem register_reload_failure (clk : clock) (student_id name : string)
    (image_file : upload) (img : image) (enc : encoding) (others : list encoding)
    (st : system) (bad : student_row) (msg : string) :
  load_image_file image_file = Ok img ->
  face_encodings img None = enc :: others ->
  In bad (students (db st)) -> s_student_id bad <> student_id ->
  truthy (s_face_encoding bad) = true ->
  json_loads (or_default (s_face_encoding bad) EmptyString) = Raise msg ->
  let st' := after (AttendanceSystem.register_student clk student_id name image_file) st in
  (exists e, returned (AttendanceSystem.register_student clk student_id name image_file) st
             = Ok (false, ("Error: " ++ e)%string)) /\
  filter (fun r => String.eqb (s_student_id r) student_id) (students (db st'))
  = [registered_row (db st) (now clk) student_id name (json_dumps enc)] /\
  ~ In student_id (known_face_ids st').
Proof.
  intros Hload Hfaces Hbad Hne Ht Hl. cbv zeta. unfold after, returned.
  rewrite (register_student_run clk student_id name _ st Hload Hfaces). cbn [fst snd db].
  set (d := upsert_student (db st) (now clk) student_id name (json_dumps enc)).
  set (kept := filter (fun r => negb (String.eqb (s_student_id r) student_id))
                 (students (db st))).
  assert (Hrows : select_students d
                  = map (fun r => (s_student_id r, s_name r, s_face_encoding r)) kept
                    ++ [(student_id, name, Some (json_dumps enc))]).
  { unfold select_students, d. now rewrite upsert_student_rows, map_app. }
  assert (Hin : In (s_student_id bad, s_name bad, s_face_encoding bad)
                  (map (fun r => (s_student_id r, s_name r, s_face_encoding r)) kept)).
  { apply (in_map (fun r => (s_student_id r, s_name r, s_face_encoding r))).
    apply filter_In. split; [exact Hbad|].
    now apply negb_true_iff, String.eqb_neq. }
  destruct (loaded_raises _ [] [] _ _ _ Hin Ht Hl) as [e He].
  rewrite Hrows, (loaded_app_raise _ _ _ _ He), He.
  split; [now exists e|]. split; [apply upsert_student_unique|].
  destruct (loaded_sound (map (fun r => (s_student_id r, s_name r, s_face_encoding r)) kept)
              [] []) as [extra [Heq Hextra]].
  rewrite Heq. simpl. intros Hx. apply in_map_iff in Hx.
  destruct Hx as [[x e'] [Hfst Hx]]. simpl in Hfst. subst x.
  destruct (Hextra _ _ Hx) as [n [ej [Hrow _]]]. apply in_map_iff in Hrow.
  destruct Hrow as [r [Hr Hrin]]. injection Hr as Hs _ _.
  apply filter_In in Hrin. destruct Hrin as [_ Hneq].
  rewrite Hs, String.eqb_refl in Hneq. discriminate.
Qed.

End RegistrationMore.

(** ** More on the handlers' checks *)

Section RoutesMore.

Context {P : FaceProvider}.

(** X6. A registration request without an image, or whose student_id or
    name is absent or empty, is answered 200 with success false and writes
    nothing; the missing image is reported first. Marking without an image
    is answered the same way. *)
Theorem incomplete_form_rejected (clk : clock) (req : request) (st : system) :
  dict_get (files req) "image" = None \/
  truthy (dict_get (form req) "student_id") = false \/
  truthy (dict_get (form req) "name") = false ->
  register_student clk req st
  = (Ok (jsonify (Message false
                    match dict_get (files req) "image" with
                    | None => "No image provided"
                    | Some _ => "Student ID and name are required"
                    end)), st) /\
  (dict_get (files req) "image" = None ->
   mark_attendance clk req st = (Ok (jsonify (Message false "No image provided")), st)).
Proof.
  intros Hmiss. split.
  - unfold register_student.
    destruct (dict_get (files req) "image") as [image_file|]; [|reflexivity].
    destruct Hmiss as [Hi|[Hs|Hn]]; [discriminate| |].
    + now rewrite Hs.
    + rewrite Hn. cbn [negb]. now rewrite orb_true_r.
  - intros Hi. unfold mark_attendance. now rewrite Hi.
Qed.

(** X7. An upload that cannot be read as an image makes both POST handlers
    raise (the load is outside the try of register_student), and nothing is
    written: in particular marking does not sweep the roster to Absent. *)
Theorem unreadable_upload_raises (clk : clock) (req : request) (st : system)
    (image_file : upload) (msg : string) :
  dict_get (files req) "image" = Some image_file ->
  load_image_file image_file = Raise msg ->
  mark_attendance clk req st = (Raise msg, st) /\
  (truthy (dict_get (form req) "student_id") = true ->
   truthy (dict_get (form req) "name") = true ->
   register_student clk req st = (Raise msg, st)).
Proof.
  intros Hfile Hload. split.
  - unfold mark_attendance. rewrite Hfile.
    unfold bind, AttendanceSystem.mark_attendance, bind, lift. now rewrite Hload.
  - intros Hs Hn. unfold register_student. rewrite Hfile, Hs, Hn. cbn [negb orb].
    unfold bind, AttendanceSystem.register_student, bind, lift. now rewrite Hload.
Qed.

End RoutesMore.

(** ** More on marking *)

Section MarkingMore.

Context {P : FaceProvider}.
Hypothesis laws : provider_laws P.



(** What [mark_attendance] makes of the outcome of its loop. *)
Lemma mark_attendance_compute (clk : clock) (source : image_source) (img : image)
    (st : system) (present_students : list string) (results : list result) :
  image_of source = Ok img ->
  for_fold (faces_of img) ([], []) match_face st = (Ok (present_students, results), st) ->
  AttendanceSystem.mark_attendance clk source st
  = (Ok results,
     {| db := swept (db st) (now clk) (today clk) present_students
                (select_student_ids (db st));
        known_face_encodings := known_face_encodings st;
        known_face_ids := known_face_ids st |}).
Proof.
  intros Himg Hfold. unfold AttendanceSystem.mark_attendance, bind at 1.
  assert (Hsrc : match source with
                 | LiveFeed frame => ret frame
                 | FromFile image_file => lift (load_image_file image_file)
                 end st = (Ok img, st)).
  { destruct source; simpl in Himg; unfold ret, lift; now rewrite Himg. }
  rewrite Hsrc. unfold bind at 1. unfold faces_of in Hfold. rewrite Hfold.
  unfold bind. rewrite sweep_run. reflexivity.
Qed.





End MarkingMore.

(** ** Marking, then listing *)



Section MarkThenList.

Context {P : FaceProvider}.
Hypothesis laws : provider_laws P.


End MarkThenList.

(** ** Manual updates and the listing *)

Lemma flat_map_ext_in {A B : Type} (f g : A -> list B) (l : list A) :
  (forall x, In x l -> f x = g x) -> flat_map f l = flat_map g l.
Proof.
  induction l as [|a l IH]; simpl; intros H; [reflexivity|].
  rewrite (H a (or_introl eq_refl)), IH; [reflexivity|].
  intros x Hx. apply H. now right.
Qed.

(** The roster rows of a student who has attendance rows for the date. *)
Lemma left_join_one_hits (d : database) (date : string) (s : student_row)
    (a : attendance_row) (hits : list attendance_row) :
  rows_for d (s_student_id s) date = a :: hits ->
  left_join_one date (attendance d) s
  = map (fun a => {| j_student_id := s_student_id s; j_name := s_name s;
                     j_status := a_status a;
                     j_timestamp := Some (a_timestamp a) |}) (a :: hits).
Proof.
  intros H. unfold left_join_one. now rewrite on_clause_rows_for, H.
Qed.

Lemma in_select_roster (d : database) (date : string) (j : joined) :
  In j (select_roster d date) <->
  exists s, In s (students d) /\ In j (left_join_one date (attendance d) s).
Proof.
  unfold select_roster. split.
  - intros Hj. apply (Permutation_in _ (order_by_student_id_perm _)) in Hj.
    now apply in_flat_map in Hj.
  - intros Hj. apply (Permutation_in _ (Permutation_sym (order_by_student_id_perm _))).
    now apply in_flat_map.
Qed.

Section UpdateThenList.

Context {P : FaceProvider}.

(** X12. After a manual update for a known student and a date in ISO form,
    the listing of that date has an entry for the student with the status
    sent (an empty status reads "Not Recorded") and the time of the update;
    when the student had no row for the date before, no entry of the
    student says otherwise. *)
Theorem update_then_listing (clk : clock) (req : request) (st : system)
    (student_id date status : string) (s : student_row) :
  iso_date date = true ->
  dict_get (json req) "student_id" = Some student_id ->
  dict_get (json req) "date" = Some date ->
  dict_get (json req) "status" = Some status ->
  In s (students (db st)) -> s_student_id s = student_id ->
  exists listing,
    returned (get_attendance date) (after (update_attendance clk req) st)
    = Ok (jsonify (Listing date listing)) /\
    In {| e_student_id := student_id; e_name := s_name s;
          e_status := or_default (Some status) "Not Recorded";
          e_timestamp := Some (now clk) |} listing /\
    (rows_for (db st) student_id date = [] ->
     forall e, In e listing -> e_student_id e = student_id ->
       e_status e = or_default (Some status) "Not Recorded" /\
       e_timestamp e = Some (now clk)).
Proof.
  intros _ Hsid Hdate Hstatus Hs Hid.
  unfold after. rewrite update_attendance_run, Hsid, Hdate, Hstatus. cbn [snd].
  set (d' := upsert_attendance (db st) (now clk) (Some student_id) (Some date)
               (Some status)).
  set (w := written_row (db st) (now clk) (Some student_id) (Some date) (Some status)).
  assert (Hrows : rows_for d' student_id date = rows_for (db st) student_id date ++ [w])
    by apply upsert_attendance_rows_for.
  exists (map entry_of (select_roster d' date)).
  unfold returned. rewrite get_attendance_run. cbn [fst db]. split; [reflexivity|].
  split.
  - change {| e_student_id := student_id; e_name := s_name s;
              e_status := or_default (Some status) "Not Recorded";
              e_timestamp := Some (now clk) |}
      with (entry_of {| j_student_id := student_id; j_name := s_name s;
                        j_status := a_status w;
                        j_timestamp := Some (a_timestamp w) |}).
    apply in_map. apply in_select_roster. exists s. split; [exact Hs|].
    destruct (rows_for d' student_id date) as [|a hits] eqn:Hd'.
    { now apply app_cons_not_nil in Hrows. }
    rewrite <- Hid in Hd'. rewrite (left_join_one_hits _ _ _ Hd'), Hid.
    apply (in_map (fun a => {| j_student_id := student_id; j_name := s_name s;
                               j_status := a_status a;
                               j_timestamp := Some (a_timestamp a) |})).
    rewrite Hrows. apply in_or_app. right. now left.
  - intros Hnone e He Heid. apply in_map_iff in He. destruct He as [j [<- Hj]].
    apply in_select_roster in Hj. destruct Hj as [s' [Hs' Hj]].
    pose proof (left_join_one_student _ _ _ _ Hj) as [Hjid _].
    cbn [entry_of e_student_id] in Heid. rewrite Hjid in Heid.
    rewrite Hnone in Hrows. cbn [app] in Hrows. rewrite <- Heid in Hrows.
    rewrite (left_join_one_hits _ _ _ Hrows) in Hj. destruct Hj as [<-|[]].
    now split.
Qed.

(** A row without a student_id or without a date is matched by no join. *)
Lemma select_roster_skips (d d' : database) (date : string)
    (before after_it : list attendance_row) (w : attendance_row) :
  students d = students d' ->
  attendance d = before ++ w :: after_it -> attendance d' = before ++ after_it ->
  a_student_id w = None \/ a_date w = None ->
  select_roster d date = select_roster d' date.
Proof.
  intros Hst Hd Hd' Hnull. unfold select_roster, left_join. f_equal.
  rewrite Hst, Hd, Hd'. apply flat_map_ext_in. intros s _. unfold left_join_one.
  rewrite !filter_app. cbn [filter].
  replace (on_clause date s w) with false; [reflexivity|].
  unfold on_clause. destruct Hnull as [-> | Hdt]; [reflexivity|].
  rewrite Hdt. now destruct (a_student_id w).
Qed.

(** Requests only add rows after those the attendance table holds. *)
Lemma serve_all_extends (calls : list call) (st : system) :
  exists more, attendance (db (serve_all calls st)) = attendance (db st) ++ more.
Proof.
  unfold serve_all. revert st. induction calls as [|c calls IH]; intros st; simpl.
  - exists []. now rewrite app_nil_r.
  - destruct (serve_never_deletes c st) as [[m1 H1] _].
    destruct (IH (serve st c)) as [m2 H2].
    exists (m1 ++ m2). now rewrite H2, H1, app_assoc.
Qed.

(** X13. An update whose student_id is absent or is no student's, or whose
    date is absent, still writes its row, and the listing and the export of
    any date are, right after it, what they were before it. When the
    student_id or the date is absent the row never shows: after any further
    requests, every listing and every export is what it would be with that
    row taken out of the table. *)
Theorem stray_update_never_listed (clk : clock) (req : request) (st : system)
    (date : string) :
  dict_get (json req) "date" = None \/
  (forall student_id, dict_get (json req) "student_id" = Some student_id ->
                      ~ In student_id (select_student_ids (db st))) ->
  let st' := after (update_attendance clk req) st in
  let row := written_row (db st) (now clk) (dict_get (json req) "student_id")
               (dict_get (json req) "date") (dict_get (json req) "status") in
  attendance (db st') = attendance (db st) ++ [row] /\
  returned (get_attendance date) st' = returned (get_attendance date) st /\
  returned (export_attendance date) st' = returned (export_attendance date) st /\
  (dict_get (json req) "date" = None \/ dict_get (json req) "student_id" = None ->
   forall calls, exists more,
     let later := serve_all calls st' in
     attendance (db later) = attendance (db st) ++ row :: more /\
     returned (get_attendance date) later
     = returned (get_attendance date)
         (with_attendance later (attendance (db st) ++ more)) /\
     returned (export_attendance date) later
     = returned (export_attendance date)
         (with_attendance later (attendance (db st) ++ more))).
Proof.
  intros Hstray. cbv zeta. unfold after. rewrite update_attendance_run. cbn [snd db].
  set (row := written_row (db st) (now clk) (dict_get (json req) "student_id")
                (dict_get (json req) "date") (dict_get (json req) "status")).
  set (d' := upsert_attendance (db st) (now clk) (dict_get (json req) "student_id")
               (dict_get (json req) "date") (dict_get (json req) "status")).
  assert (Hatt : attendance d' = attendance (db st) ++ [row])
    by apply upsert_attendance_appends.
  split; [exact Hatt|].
  assert (Hroster : select_roster d' date = select_roster (db st) date).
  { unfold select_roster, left_join. f_equal.
    unfold d' at 2. rewrite upsert_attendance_students.
    apply flat_map_ext_in. intros s Hs. unfold left_join_one.
    rewrite Hatt, filter_app.
    replace (filter (on_clause date s) [row]) with (@nil attendance_row);
      [now rewrite app_nil_r|].
    cbn [filter]. unfold on_clause, row, written_row. cbn [a_student_id a_date].
    destruct (dict_get (json req) "student_id") as [sid|]; [|reflexivity].
    destruct (dict_get (json req) "date") as [dt|]; [|reflexivity].
    destruct Hstray as [Hd|Hunknown]; [discriminate|].
    destruct (String.eqb_spec (s_student_id s) sid) as [Heq|_]; [|reflexivity].
    exfalso. apply (Hunknown sid eq_refl). apply in_select_student_ids. now exists s. }
  unfold returned. rewrite !get_attendance_run, !export_attendance_run. cbn [fst db].
  rewrite Hroster. split; [reflexivity|]. split; [reflexivity|].
  intros Hnull calls.
  set (st' := {| db := d'; known_face_encodings := known_face_encodings st;
                 known_face_ids := known_face_ids st |}).
  destruct (serve_all_extends calls st') as [more Hmore].
  cbn [db st'] in Hmore. rewrite Hatt, <- app_assoc in Hmore. cbn [app] in Hmore.
  exists more. cbv zeta. split; [exact Hmore|].
  rewrite !get_attendance_run, !export_attendance_run. cbn [fst].
  assert (Hskip : select_roster (db (serve_all calls st')) date
                  = select_roster
                      (db (with_attendance (serve_all calls st')
                             (attendance (db st) ++ more))) date).
  { apply (select_roster_skips _ _ date (attendance (db st)) more row);
      [reflexivity|exact Hmore|reflexivity|].
    unfold row, written_row. cbn [a_student_id a_date].
    destruct Hnull as [-> | ->]; [now right|now left]. }
  now rewrite Hskip.
Qed.

End UpdateThenList.

(** ** The export and the listing *)

Lemma newlines_append (a b : string) :
  newlines (a ++ b)%string = (newlines a + newlines b)%nat.
Proof.
  induction a as [|c a IH]; simpl; [reflexivity|]. rewrite IH. lia.
Qed.

Lemma concat_cons (x : string) (l : list string) :
  String.concat "" (x :: l) = (x ++ String.concat "" l)%string.
Proof.
  destruct l as [|y l]; simpl; [now rewrite append_nil_r|reflexivity].
Qed.

Lemma sorted_entries (l : list joined) :
  Sorted by_student_id l -> Sorted by_entry_id (map entry_of l).
Proof.
  induction 1 as [|j l Hs IH Hhd]; simpl; constructor; [exact IH|].
  destruct Hhd as [|k l Hjk]; simpl; constructor. exact Hjk.
Qed.

Lemma csv_line_entry (date : string) (j : joined) :
  csv_line date j = entry_line date (entry_of j).
Proof. reflexivity. Qed.

(** An ISO date holds no newline. *)
Lemma iso_date_newlines (date : string) : iso_date date = true -> newlines date = 0%nat.
Proof.
  unfold iso_date.
  destruct date as [|y1 [|y2 [|y3 [|y4 [|h1 [|m1 [|m2 [|h2 [|d1 [|d2 [|c rest]]]]]]]]]]];
    try discriminate.
  intros H. do 9 (apply andb_prop in H; destruct H as [H ?]).
  assert (Hd : forall c, is_digit c = true -> Ascii.eqb c "010" = false).
  { intros c Hc. apply Ascii.eqb_neq. intros ->. discriminate. }
  assert (Hh : forall c, Ascii.eqb c "-" = true -> Ascii.eqb c "010" = false).
  { intros c Hc. apply Ascii.eqb_eq in Hc. now subst c. }
  simpl. repeat match goal with
                | Hx : is_digit ?c = true |- _ => rewrite (Hd c Hx); clear Hx
                | Hx : Ascii.eqb ?c "-" = true |- _ => rewrite (Hh c Hx); clear Hx
                end.
  reflexivity.
Qed.

Section ExportMore.

Context {P : FaceProvider}.

(** X14. For any date and state, the listing comes in ascending student_id,
    and the export is the header followed by one line per listing entry,
    also in ascending student_id, made of the entry's student_id, name and
    status and the date, separated by commas, with nothing quoted or
    escaped. *)
Theorem export_follows_listing (date : string) (st : system) :
  exists listing exported,
    returned (get_attendance date) st = Ok (jsonify (Listing date listing)) /\
    Sorted by_entry_id listing /\
    returned (export_attendance date) st
    = Ok {| status_code := 200;
            headers := [("Content-Type", "text/csv");
                        ("Content-Disposition",
                         "attachment; filename=attendance_" ++ date ++ ".csv")]%string;
            payload := Text (csv_header
                             ++ String.concat "" (map (entry_line date) exported)) |} /\
    Sorted by_entry_id exported /\
    Permutation exported listing.
Proof.
  exists (map entry_of (select_roster (db st) date)),
         (map entry_of (select_roster (db st) date)).
  unfold returned. rewrite get_attendance_run, export_attendance_run. cbn [fst].
  split; [reflexivity|]. split; [apply sorted_entries, select_roster_sorted|].
  split; [rewrite map_map; do 4 f_equal|].
  split; [apply sorted_entries, select_roster_sorted|reflexivity].
Qed.

(** X15. For a date in ISO form: when neither a student's id or name nor a
    stored status holds a newline, the export has one line for the header
    and one per roster row; when moreover no student has two attendance
    rows for the date, that is one line per student plus the header. *)
Theorem export_line_count (date : string) (st : system) :
  iso_date date = true ->
  (forall s, In s (students (db st)) ->
             newlines (s_student_id s) = 0%nat /\ newlines (s_name s) = 0%nat) ->
  (forall a status, In a (attendance (db st)) -> a_status a = Some status ->
                    newlines status = 0%nat) ->
  exists csv_data,
    returned (export_attendance date) st
    = Ok {| status_code := 200;
            headers := [("Content-Type", "text/csv");
                        ("Content-Disposition",
                         "attachment; filename=attendance_" ++ date ++ ".csv")]%string;
            payload := Text csv_data |} /\
    newlines csv_data = S (List.length (select_roster (db st) date)) /\
    ((forall s, In s (students (db st)) ->
                (List.length (rows_for (db st) (s_student_id s) date) <= 1)%nat) ->
     newlines csv_data = S (List.length (students (db st)))).
Proof.
  intros Hiso Hstudents Hstatus.
  pose proof (iso_date_newlines date Hiso) as Hdate.
  eexists. unfold returned. rewrite export_attendance_run. cbn [fst].
  split; [reflexivity|].
  assert (Hline : forall j, In j (select_roster (db st) date) ->
                            newlines (csv_line date j) = 1%nat).
  { intros j Hj. apply in_select_roster in Hj. destruct Hj as [s [Hs Hj]].
    destruct (left_join_one_student _ _ _ _ Hj) as [Hid Hname].
    destruct (Hstudents s Hs) as [H1 H2].
    assert (Hst : newlines (or_default (j_status j) "Not Recorded") = 0%nat).
    { unfold left_join_one in Hj.
      destruct (filter (on_clause date s) (attendance (db st))) as [|a hits] eqn:Hf.
      - destruct Hj as [<-|[]]. reflexivity.
      - apply in_map_iff in Hj. destruct Hj as [b [<- Hb]]. cbn [j_status].
        assert (Hin : In b (attendance (db st))).
        { rewrite <- Hf in Hb. now apply filter_In in Hb. }
        unfold or_default. destruct (a_status b) as [x|] eqn:Hx; [|reflexivity].
        destruct (String.eqb x EmptyString); [reflexivity|]. now apply (Hstatus b). }
    unfold csv_line. rewrite !newlines_append, Hid, Hname, H1, H2, Hst, Hdate.
    reflexivity. }
  assert (Hcount : newlines (csv_header ++ String.concat ""
                               (map (csv_line date) (select_roster (db st) date)))
                   = S (List.length (select_roster (db st) date))).
  { rewrite newlines_append. change (newlines csv_header) with 1%nat. cbn [Nat.add].
    f_equal. induction (select_roster (db st) date) as [|j l IH]; [reflexivity|].
    cbn [map List.length]. rewrite concat_cons, newlines_append.
    rewrite (Hline j (or_introl eq_refl)), IH; [reflexivity|].
    intros k Hk. apply Hline. now right. }
  split; [exact Hcount|].
  intros Huniq. rewrite Hcount. f_equal. now apply select_roster_length.
Qed.

End ExportMore.

(** ** The reload in full, and start-up *)

Section ReloadMore.

Context {P : FaceProvider}.

Lemma loaded_decodes (l : list student_row) (encs : list encoding) (ids : list string) :
  (forall r, In r l -> truthy (s_face_encoding r) = true ->
     exists enc, json_loads (or_default (s_face_encoding r) EmptyString) = Ok enc) ->
  exists es,
    loaded (map (fun r => (s_student_id r, s_name r, s_face_encoding r)) l) encs ids
    = (Ok tt, (encs ++ es,
               ids ++ map s_student_id
                        (filter (fun r => truthy (s_face_encoding r)) l))) /\
    Forall2 (fun r enc => json_loads (or_default (s_face_encoding r) EmptyString) = Ok enc)
      (filter (fun r => truthy (s_face_encoding r)) l) es.
Proof.
  revert encs ids. induction l as [|r l IH]; intros encs ids Hall.
  - exists []. simpl. rewrite !app_nil_r. split; [reflexivity|constructor].
  - simpl. destruct (truthy (s_face_encoding r)) eqn:Ht.
    + destruct (Hall r (or_introl eq_refl) Ht) as [enc Henc]. rewrite Henc.
      destruct (IH (encs ++ [enc]) (ids ++ [s_student_id r])) as [es [Heq Hall2]].
      { intros r' Hr'. apply Hall. now right. }
      exists (enc :: es). split.
      * rewrite Heq. simpl. now rewrite <- !app_assoc.
      * now constructor.
    + apply IH. intros r' Hr'. apply Hall. now right.
Qed.

(** X16. When every stored encoding reads back, a reload returns, forgets
    whatever the cache held, and leaves exactly the students that carry a
    non-empty encoding, in table order: their ids in one list and, at the
    same positions, their decoded encodings in the other. The store is not
    written. *)
Theorem reload_rebuilds_cache (st : system) :
  loadable (db st) ->
  let kept := filter (fun r => truthy (s_face_encoding r)) (students (db st)) in
  returned AttendanceSystem.load_known_faces st = Ok tt /\
  db (after AttendanceSystem.load_known_faces st) = db st /\
  known_face_ids (after AttendanceSystem.load_known_faces st) = map s_student_id kept /\
  Forall2 (fun r enc => json_loads (or_default (s_face_encoding r) EmptyString) = Ok enc)
    kept (known_face_encodings (after AttendanceSystem.load_known_faces st)).
Proof.
  intros Hload. cbv zeta. unfold returned, after. rewrite load_known_faces_run.
  unfold select_students.
  destruct (loaded_decodes (students (db st)) [] [] Hload) as [es [Heq Hall]].
  rewrite Heq. cbn [fst snd db known_face_ids known_face_encodings app].
  repeat split; assumption || reflexivity.
Qed.

(** X17. Run on a file without the students table, the program raises
    "no such table: students" while the module is still being loaded: the
    AttendanceSystem is built before init_db is reached, so the tables are
    not created and the next run fails the same way. *)
Theorem main_fails_before_init_db (f : db_file) :
  students_table f = None ->
  main f = (Raise "no such table: students", f).
Proof.
  intros Hnone. unfold main, construct. now rewrite Hnone.
Qed.

(** X18. Once init_db has run on a file, the rows the file held are all
    still there, running it again changes nothing, and start-up succeeds
    whenever the stored encodings read back: the system it builds works on
    those rows, with its cache lists of equal length and holding only ids
    of students. *)
Theorem main_after_init_db (f : db_file) :
  loadable (view f) ->
  view (init_db f) = view f /\
  init_db (init_db f) = init_db f /\
  exists st,
    main (init_db f) = (Ok st, init_db f) /\
    db st = view f /\ lockstep st /\ cache_known st.
Proof.
  intros Hload.
  assert (Hview : view (init_db f) = view f).
  { destruct f as [[[srows sseq]|] [[arows aseq]|]]; reflexivity. }
  assert (Hidem : init_db (init_db f) = init_db f).
  { destruct f as [[[srows sseq]|] [[arows aseq]|]]; reflexivity. }
  split; [exact Hview|]. split; [exact Hidem|].
  set (st0 := {| db := view f; known_face_encodings := []; known_face_ids := [] |}).
  assert (Hret : returned AttendanceSystem.load_known_faces st0 = Ok tt).
  { unfold returned. rewrite load_known_faces_run. cbn [fst].
    apply (loaded_complete (select_students (db st0)) [] []).
    now apply loadable_rows. }
  destruct (load_known_faces_lockstep st0) as [Hlock Hdb].
  exists (after AttendanceSystem.load_known_faces st0).
  split; [|split; [exact Hdb|split; [exact Hlock|]]].
  - unfold main, construct. rewrite Hidem, Hview. fold st0.
    unfold returned in Hret. unfold after.
    destruct (students_table (init_db f)) eqn:Hs.
    + destruct (AttendanceSystem.load_known_faces st0) as [[u|m] st1]; simpl in Hret;
        [reflexivity|discriminate].
    + destruct f as [[[srows sseq]|] [[arows aseq]|]]; discriminate.
  - intros x Hx. apply load_known_faces_ids in Hx. destruct Hx as [r [Hr [Hs _]]].
    rewrite Hdb. apply in_select_student_ids. now exists r.
Qed.

End ReloadMore.

(** ** The results, face by face; a first registration *)

Section ResultsMore.

Context {P : FaceProvider}.
Hypothesis laws : provider_laws P.

Lemma face_result_empty (st : system) (face : encoding) :
  known_face_encodings st = [] -> face_result st face = [].
Proof.
  intros Hk. unfold face_result. rewrite Hk.
  pose proof (face_distance_length laws [] face) as Hlen.
  destruct (face_distance [] face); [reflexivity|discriminate].
Qed.

Lemma match_faces_flat (st : system) (faces : list encoding)
    (present_students : list string) (attendance_results : list result) :
  lockstep st ->
  for_fold faces (present_students, attendance_results) match_face st
  = (Ok (present_students ++ map r_student_id (flat_map (face_result st) faces),
         attendance_results ++ flat_map (face_result st) faces), st).
Proof.
  intros Hlock. revert present_students attendance_results.
  induction faces as [|face faces IH]; intros p r.
  - simpl. now rewrite !app_nil_r.
  - rewrite for_fold_cons. cbn [flat_map].
    destruct (known_face_encodings st) as [|k ks] eqn:Hk.
    + rewrite (match_face_empty laws st (p, r) face Hk), (face_result_empty _ face Hk).
      apply IH.
    + assert (Hne : known_face_encodings st <> []) by congruence.
      destruct (match_face_run laws p r face Hlock Hne)
        as [i [d [hit [sid [stored [Harg [Hd [Hhit [Hsid [_ Hrun]]]]]]]]]].
      rewrite Hrun.
      assert (Hres : face_result st face
                     = if hit then [present_result (db st) sid d] else []).
      { unfold face_result. cbv zeta. rewrite Harg, Hhit, Hsid, Hd. now destruct hit. }
      rewrite Hres. destruct hit.
      * rewrite IH. cbn [app map present_result r_student_id].
        now rewrite <- !app_assoc.
      * apply IH.
Qed.

(** X19. The results of a marking are, face by face in detection order,
    the entry of the student the face matched, and nothing for a face that
    matched nobody: a student matched by two faces is reported twice. *)
Theorem results_follow_faces (clk : clock) (source : image_source) (img : image)
    (st : system) :
  image_of source = Ok img -> lockstep st ->
  returned (AttendanceSystem.mark_attendance clk source) st
  = Ok (flat_map (face_result st) (faces_of img)).
Proof.
  intros Himg Hlock.
  pose proof (match_faces_flat (faces_of img) [] [] Hlock) as Hfold. cbn [app] in Hfold.
  unfold returned. now rewrite (mark_attendance_compute clk source Himg Hfold).
Qed.

(** X20. A registration request with an image, a student_id and a name,
    whose image shows at least one face, on a table that reads back: the
    answer is success true; the student's row carries the name sent and
    the encoding of the first face (further faces are ignored); the cache
    holds the id once, with that encoding; and the table still reads
    back. *)
Theorem register_route_success (clk : clock) (req : request) (st : system)
    (image_file : upload) (img : image) (enc : encoding) (others : list encoding)
    (student_id name : string) :
  dict_get (files req) "image" = Some image_file ->
  dict_get (form req) "student_id" = Some student_id ->
  dict_get (form req) "name" = Some name ->
  student_id <> EmptyString -> name <> EmptyString ->
  load_image_file image_file = Ok img ->
  face_encodings img None = enc :: others ->
  loadable (db st) ->
  returned (register_student clk req) st
  = Ok (jsonify (Message true "Student registered successfully")) /\
  filter (fun r => String.eqb (s_student_id r) student_id)
    (students (db (after (register_student clk req) st)))
  = [registered_row (db st) (now clk) student_id name (json_dumps enc)] /\
  filter (fun id => String.eqb id student_id)
    (known_face_ids (after (register_student clk req) st)) = [student_id] /\
  (forall i, nth_error (known_face_ids (after (register_student clk req) st)) i
             = Some student_id ->
             nth_error (known_face_encodings (after (register_student clk req) st)) i
             = Some enc) /\
  loadable (db (after (register_student clk req) st)).
Proof.
  intros Hfile Hsid Hname Hsid_ne Hname_ne Hload Hfaces Hok.
  destruct (register_student_effect laws clk student_id name _ st Hload Hfaces)
    as [Hrow [Hcache Hrest]].
  destruct (Hrest Hok) as [Hret [Hids Hloadable]].
  assert (Hroute : register_student clk req st
                   = (match AttendanceSystem.register_student clk student_id name
                              image_file st with
                      | (Ok (success, message), st') =>
                          (Ok (jsonify (Message success message)), st')
                      | (Raise msg, st') => (Raise msg, st')
                      end)).
  { unfold register_student. rewrite Hfile, Hsid, Hname. cbn [truthy or_default].
    apply String.eqb_neq in Hsid_ne, Hname_ne. rewrite Hsid_ne, Hname_ne.
    cbn [negb orb]. unfold bind.
    destruct (AttendanceSystem.register_student clk student_id name image_file st)
      as [[[s m]|msg] st']; reflexivity. }
  unfold returned, after in *. rewrite Hroute.
  destruct (AttendanceSystem.register_student clk student_id name image_file st)
    as [[[s m]|msg] st']; cbn [fst snd] in *; [|discriminate].
  injection Hret as -> ->. repeat split; assumption.
Qed.

End ResultsMore.

(** ** The further statements, applied to the small provider *)

Lemma serve_all_keeps_ids_unique_witness :
  ids_unique (serve_all Week.requests Toy.boot).
Proof.
  apply (@serve_all_keeps_ids_unique Toy.provider Week.requests Toy.boot).
  apply NoDup_nil.
Defined.

Lemma serve_all_keeps_cache_sound_witness :
  lockstep (serve_all Week.requests Toy.boot) /\
  cache_known (serve_all Week.requests Toy.boot).
Proof.
  apply (@serve_all_keeps_cache_sound Toy.provider Week.requests Toy.boot).
  - reflexivity.
  - intros x [].
Defined.

Lemma register_keeps_other_rows_witness :
  attendance (db (after (AttendanceSystem.register_student Toy.noon "A1" "Anne"
                           ([12] : @upload Toy.provider)) Day.second_call))
  = attendance (db Day.second_call).
Proof.
  exact (proj2 (@register_keeps_other_rows Toy.provider Toy.noon "A1"%string
                  "Anne"%string [12] [12] 12 [] Day.second_call eq_refl eq_refl)).
Defined.

Lemma register_reload_failure_witness :
  ~ In "A1"%string
      (known_face_ids (after (AttendanceSystem.register_student Toy.morning "A1" "Ann"
                                ([10] : @upload Toy.provider)) Night.with_garbage)).
Proof.
  refine (proj2 (proj2 (@register_reload_failure Toy.provider Toy.morning "A1"%string
                          "Ann"%string [10] [10] 10 [] Night.with_garbage
                          Week.bob_garbled "Expecting value"%string
                          eq_refl eq_refl _ _ eq_refl eq_refl))).
  - left. reflexivity.
  - discriminate.
Defined.

Lemma incomplete_form_rejected_witness :
  register_student Toy.morning (Toy.multipart None []) Toy.boot
  = (Ok (jsonify (Message false "No image provided")), Toy.boot).
Proof.
  exact (proj1 (@incomplete_form_rejected Toy.provider Toy.morning
                  (Toy.multipart None []) Toy.boot (or_introl eq_refl))).
Defined.

Lemma unreadable_upload_raises_witness :
  mark_attendance Toy.morning Fragile.broken_upload Fragile.boot
  = (Raise "cannot identify image file", Fragile.boot).
Proof.
  exact (proj1 (@unreadable_upload_raises Fragile.provider Toy.morning
                  Fragile.broken_upload Fragile.boot None
                  "cannot identify image file"%string eq_refl eq_refl)).
Defined.





Lemma update_then_listing_witness :
  exists listing,
    returned (get_attendance "2024-03-01")
      (after (update_attendance Toy.noon Day.correction) Day.registered)
    = Ok (jsonify (Listing "2024-03-01" listing)) /\
    In {| e_student_id := "A1"; e_name := "Ann"; e_status := "Present";
          e_timestamp := Some "2024-03-01 12:00:00"%string |} listing.
Proof.
  destruct (@update_then_listing Toy.provider Toy.noon Day.correction Day.registered
              "A1"%string "2024-03-01"%string "Present"%string Week.ann
              eq_refl eq_refl eq_refl eq_refl (or_introl eq_refl) eq_refl)
    as [listing [Hlist [Hin _]]].
  exists listing. split; [exact Hlist|exact Hin].
Defined.

Lemma stray_update_never_listed_witness :
  returned (get_attendance "2024-03-01")
    (after (update_attendance Toy.noon (Toy.json_body [("status", "Present")]%string))
       Day.registered)
  = returned (get_attendance "2024-03-01") Day.registered.
Proof.
  exact (proj1 (proj2 (@stray_update_never_listed Toy.provider Toy.noon
                         (Toy.json_body [("status", "Present")]%string)
                         Day.registered "2024-03-01"%string (or_introl eq_refl)))).
Defined.

Lemma export_line_count_witness :
  exists csv_data,
    returned (export_attendance "2024-03-01") Day.registered
    = Ok {| status_code := 200;
            headers := [("Content-Type", "text/csv");
                        ("Content-Disposition",
                         "attachment; filename=attendance_2024-03-01.csv")]%string;
            payload := Text csv_data |} /\
    newlines csv_data = 3%nat.
Proof.
  destruct (@export_line_count Toy.provider "2024-03-01"%string Day.registered)
    as [csv_data [Hret [Hcount _]]].
  - reflexivity.
  - intros s [<-|[<-|[]]]; split; reflexivity.
  - intros a status [].
  - exists csv_data. split; [exact Hret|exact Hcount].
Defined.

Lemma reload_rebuilds_cache_witness :
  known_face_ids (after AttendanceSystem.load_known_faces Day.with_blank) = ["A1"%string].
Proof.
  refine (proj1 (proj2 (proj2 (@reload_rebuilds_cache Toy.provider Day.with_blank _)))).
  intros r [<-|[<-|[]]] Ht; [|discriminate]. exists 10%nat. reflexivity.
Defined.

Lemma main_fails_before_init_db_witness :
  @main Toy.provider Night.fresh_file
  = (Raise "no such table: students", Night.fresh_file).
Proof.
  exact (@main_fails_before_init_db Toy.provider Night.fresh_file eq_refl).
Defined.

Lemma main_after_init_db_witness :
  exists st, @main Toy.provider (init_db Night.fresh_file)
             = (Ok st, init_db Night.fresh_file).
Proof.
  destruct (@main_after_init_db Toy.provider Night.fresh_file) as [_ [_ [st [Hmain _]]]].
  - intros r [].
  - exists st. exact Hmain.
Defined.

Lemma results_follow_faces_witness :
  returned (AttendanceSystem.mark_attendance Toy.morning
              (@FromFile Toy.provider [11; 15; 9])) Day.registered
  = Ok (flat_map (face_result Day.registered) ([11; 15; 9] : list (@encoding Toy.provider))).
Proof.
  exact (@results_follow_faces Toy.provider toy_laws Toy.morning
           (@FromFile Toy.provider [11; 15; 9]) [11; 15; 9] Day.registered
           eq_refl eq_refl).
Defined.

Lemma register_route_success_witness :
  returned (register_student Toy.morning
              (Toy.multipart (Some [10; 30]) [("student_id", "A1"); ("name", "Ann")]%string))
    Toy.boot
  = Ok (jsonify (Message true "Student registered successfully")).
Proof.
  refine (proj1 (@register_route_success Toy.provider toy_laws Toy.morning
                   (Toy.multipart (Some [10; 30])
                      [("student_id", "A1"); ("name", "Ann")]%string)
                   Toy.boot [10; 30] [10; 30] 10 [30] "A1"%string "Ann"%string
                   eq_refl eq_refl eq_refl _ _ eq_refl eq_refl _)).
  - discriminate.
  - discriminate.
  - intros r [].
Defined.
